(** * aws-go-tools: the stack scanner and the task log fetcher

    A shallow embedding of the two command-line programs of the repository
    ([cmd/scan-stacks/main.go] and the ECS task log fetcher) and the
    properties of their enumeration loops, nil guards and error paths.

    The AWS services are external: every SDK operation the programs call is
    a field of a record of functions over an abstract backend state, and a
    run of a program is a function from the backend to an outcome and the
    trace of what the program did (log lines, standard output, API calls). *)

From Stdlib Require Import ZArith List Lia Ascii String.
From stdpp Require Import base option list strings pretty gmap.

Import ListNotations.
Local Open Scope Z_scope.

(** ** Go values *)

(** A Go [error] is carried by its message. *)
Definition error := string.

(** The [(value, error)] pair a Go function returns: exactly one side is
    meaningful. *)
Inductive GoResult (A : Type) : Type :=
| Ok (a : A)
| Err (e : error).
Arguments Ok {A} a.
Arguments Err {A} e.

(** [time.Time], as seconds since the Unix epoch plus nanoseconds within
    the second. *)
Record Time := mkTime { Time_sec : Z; Time_nsec : Z }.

(** [os.Getenv]: the value of the variable, empty when it is unset. *)
Definition Getenv (env : gmap string string) (key : string) : string :=
  default ""%string (env !! key).

(** ** Runs of a program *)

(** How a Go computation ends: it returns, the process exits ([os.Exit],
    which [log.Fatalf] calls with status 1), or it panics. *)
Inductive Outcome (A : Type) : Type :=
| Returned (a : A)
| Exited (code : Z)
| Panicked (msg : string).
Arguments Returned {A} a.
Arguments Exited {A} code.
Arguments Panicked {A} msg.

(** The exit status of a process whose [main] ended that way. *)
Definition exit_code (o : Outcome unit) : Z :=
  match o with
  | Returned _ => 0
  | Exited code => code
  | Panicked _ => 2
  end.

(** A computation over a state [S]; [None] when the fuel given to an
    unbounded [for] loop ran out. *)
Definition M (S A : Type) : Type := S -> option (Outcome A * S).

Definition ret {S A} (a : A) : M S A := fun s => Some (Returned a, s).

Definition bind {S A B} (m : M S A) (k : A -> M S B) : M S B :=
  fun s =>
    match m s with
    | None => None
    | Some (Returned a, s') => k a s'
    | Some (Exited code, s') => Some (Exited code, s')
    | Some (Panicked msg, s') => Some (Panicked msg, s')
    end.

Definition os_Exit {S A} (code : Z) : M S A := fun s => Some (Exited code, s).
Definition panic {S A} (msg : string) : M S A := fun s => Some (Panicked msg, s).
Definition out_of_fuel {S A} : M S A := fun _ => None.

Notation "'let!' x := m 'in' k" := (bind m (fun x => k))
  (at level 10, x name, m at level 100, k at level 200, only parsing).
Notation "m ;; k" := (bind m (fun _ => k))
  (at level 100, k at level 200, right associativity, only parsing).

(** [*p] on a pointer: a nil pointer panics. *)
Definition deref {S A} (p : option A) : M S A :=
  match p with
  | Some a => ret a
  | None => panic "runtime error: invalid memory address or nil pointer dereference"
  end.

(** [for _, x := range l { body }]; a [continue] in the body is the body
    returning early. *)
Fixpoint for_range {S A} (l : list A) (body : A -> M S unit) : M S unit :=
  match l with
  | [] => ret tt
  | x :: rest => body x ;; for_range rest body
  end.

(** A [range] loop that updates a local variable. *)
Fixpoint for_range_acc {S A V} (l : list A) (v : V) (body : V -> A -> M S V) : M S V :=
  match l with
  | [] => ret v
  | x :: rest => let! v' := body v x in for_range_acc rest v' body
  end.

(* ===================================================================== *)
(** * The stack scanner ([cmd/scan-stacks/main.go]) *)
(* ===================================================================== *)

Module ScanStacks.

(** ** API data *)

(** [aws.Config]: the loaded configuration; the region every client built
    from it talks to is one of its fields. *)
Record Config := mkConfig { Region : string }.

(** [cfTypes.StackStatus] and its constants, in the order of the SDK's
    [StackStatus.Values()] (package
    [github.com/aws/aws-sdk-go-v2/service/cloudformation/types], imported at
    [main.go:13]). *)
Inductive StackStatus : Type :=
| StackStatusCreateInProgress
| StackStatusCreateFailed
| StackStatusCreateComplete
| StackStatusRollbackInProgress
| StackStatusRollbackFailed
| StackStatusRollbackComplete
| StackStatusDeleteInProgress
| StackStatusDeleteFailed
| StackStatusDeleteComplete
| StackStatusUpdateInProgress
| StackStatusUpdateCompleteCleanupInProgress
| StackStatusUpdateComplete
| StackStatusUpdateFailed
| StackStatusUpdateRollbackInProgress
| StackStatusUpdateRollbackFailed
| StackStatusUpdateRollbackCompleteCleanupInProgress
| StackStatusUpdateRollbackComplete
| StackStatusReviewInProgress
| StackStatusImportInProgress
| StackStatusImportComplete
| StackStatusImportRollbackInProgress
| StackStatusImportRollbackFailed
| StackStatusImportRollbackComplete.

#[global] Instance StackStatus_eq_dec : EqDecision StackStatus.
Proof. solve_decision. Defined.

(** [StackStatus.Values()]: every status the service defines. *)
Definition StackStatus_Values : list StackStatus :=
  [ StackStatusCreateInProgress; StackStatusCreateFailed; StackStatusCreateComplete;
    StackStatusRollbackInProgress; StackStatusRollbackFailed; StackStatusRollbackComplete;
    StackStatusDeleteInProgress; StackStatusDeleteFailed; StackStatusDeleteComplete;
    StackStatusUpdateInProgress; StackStatusUpdateCompleteCleanupInProgress;
    StackStatusUpdateComplete; StackStatusUpdateFailed;
    StackStatusUpdateRollbackInProgress; StackStatusUpdateRollbackFailed;
    StackStatusUpdateRollbackCompleteCleanupInProgress; StackStatusUpdateRollbackComplete;
    StackStatusReviewInProgress;
    StackStatusImportInProgress; StackStatusImportComplete;
    StackStatusImportRollbackInProgress; StackStatusImportRollbackFailed;
    StackStatusImportRollbackComplete ].

(** The string a status is (the type is [string] underneath), as [%s]
    prints it. *)
Definition StackStatus_String (st : StackStatus) : string :=
  match st with
  | StackStatusCreateInProgress => "CREATE_IN_PROGRESS"
  | StackStatusCreateFailed => "CREATE_FAILED"
  | StackStatusCreateComplete => "CREATE_COMPLETE"
  | StackStatusRollbackInProgress => "ROLLBACK_IN_PROGRESS"
  | StackStatusRollbackFailed => "ROLLBACK_FAILED"
  | StackStatusRollbackComplete => "ROLLBACK_COMPLETE"
  | StackStatusDeleteInProgress => "DELETE_IN_PROGRESS"
  | StackStatusDeleteFailed => "DELETE_FAILED"
  | StackStatusDeleteComplete => "DELETE_COMPLETE"
  | StackStatusUpdateInProgress => "UPDATE_IN_PROGRESS"
  | StackStatusUpdateCompleteCleanupInProgress => "UPDATE_COMPLETE_CLEANUP_IN_PROGRESS"
  | StackStatusUpdateComplete => "UPDATE_COMPLETE"
  | StackStatusUpdateFailed => "UPDATE_FAILED"
  | StackStatusUpdateRollbackInProgress => "UPDATE_ROLLBACK_IN_PROGRESS"
  | StackStatusUpdateRollbackFailed => "UPDATE_ROLLBACK_FAILED"
  | StackStatusUpdateRollbackCompleteCleanupInProgress =>
      "UPDATE_ROLLBACK_COMPLETE_CLEANUP_IN_PROGRESS"
  | StackStatusUpdateRollbackComplete => "UPDATE_ROLLBACK_COMPLETE"
  | StackStatusReviewInProgress => "REVIEW_IN_PROGRESS"
  | StackStatusImportInProgress => "IMPORT_IN_PROGRESS"
  | StackStatusImportComplete => "IMPORT_COMPLETE"
  | StackStatusImportRollbackInProgress => "IMPORT_ROLLBACK_IN_PROGRESS"
  | StackStatusImportRollbackFailed => "IMPORT_ROLLBACK_FAILED"
  | StackStatusImportRollbackComplete => "IMPORT_ROLLBACK_COMPLETE"
  end.

(** [cfTypes.StackSummary], the fields the scanner reads. Pointer fields
    are options: [None] is nil. *)
Record StackSummary := mkStackSummary {
  StackId : option string;
  StackName : option string;
  StackStatus_ : StackStatus;
  StackStatusReason : option string;
  ParentId : option string;
  RootId : option string;
  CreationTime : option Time;
  LastUpdatedTime : option Time;
  DeletionTime : option Time
}.

(** [cfTypes.StackResourceSummary]; [ResourceStatus] is a string type. *)
Record StackResourceSummary := mkStackResourceSummary {
  PhysicalResourceId : option string;
  LogicalResourceId : option string;
  ResourceType : option string;
  ResourceStatus : string;
  ResourceStatusReason : option string;
  LastUpdatedTimestamp : option Time
}.

(** [ec2Types.Region]. *)
Record Region_ := mkRegion { RegionName : option string }.

Module GetCallerIdentityOutput.
Record t := mk { Account : option string; UserId : option string; Arn : option string }.
End GetCallerIdentityOutput.

Module DescribeRegionsInput.
Record t := mk { AllRegions : option bool }.
End DescribeRegionsInput.

Module DescribeRegionsOutput.
Record t := mk { Regions : list Region_ }.
End DescribeRegionsOutput.

Module ListStacksInput.
Record t := mk { NextToken : option string; StackStatusFilter : list StackStatus }.
End ListStacksInput.

Module ListStacksOutput.
Record t := mk { StackSummaries : list StackSummary; NextToken : option string }.
End ListStacksOutput.

Module ListStackResourcesInput.
Record t := mk { StackName : option string; NextToken : option string }.
End ListStackResourcesInput.

Module ListStackResourcesOutput.
Record t := mk {
  StackResourceSummaries : list StackResourceSummary;
  NextToken : option string
}.
End ListStackResourcesOutput.

(** What a run leaves behind, in order: log lines and the requests sent to
    the services. A log line is the formatted message; the logger's date
    prefix and the closing newline are left out. *)
Inductive Event : Type :=
| Logged (line : string)
| CalledGetCallerIdentity (cfg : Config)
| CalledDescribeRegions (cfg : Config) (input : DescribeRegionsInput.t)
| CalledListStacks (cfg : Config) (input : ListStacksInput.t)
| CalledListStackResources (cfg : Config) (input : ListStackResourcesInput.t).

(** The services the scanner talks to, over a backend state [B]. A client
    is built from a [Config], so each operation takes the configuration of
    the client it is called on. *)
Record AWS (B : Type) := mkAWS {
  LoadDefaultConfig : B -> GoResult Config;
  GetCallerIdentity : Config -> B -> GoResult GetCallerIdentityOutput.t * B;
  DescribeRegions :
    Config -> DescribeRegionsInput.t -> B -> GoResult DescribeRegionsOutput.t * B;
  ListStacks : Config -> ListStacksInput.t -> B -> GoResult ListStacksOutput.t * B;
  ListStackResources :
    Config -> ListStackResourcesInput.t -> B -> GoResult ListStackResourcesOutput.t * B
}.
Arguments LoadDefaultConfig {B} _ _.
Arguments GetCallerIdentity {B} _ _ _.
Arguments DescribeRegions {B} _ _ _ _.
Arguments ListStacks {B} _ _ _ _.
Arguments ListStackResources {B} _ _ _ _.

(** The state of a run: the backend and the trace so far. *)
Record Run (B : Type) := mkRun { backend : B; trace : list Event }.
Arguments mkRun {B} _ _.
Arguments backend {B} _.
Arguments trace {B} _.

(** ** The program *)

Section Program.

Context {B : Type}.

(** The services, the process environment, and [time.Time.Format] (the
    standard library's layout-driven rendering). *)
Variable aws : AWS B.
Variable env : gmap string string.
Variable Time_Format : Time -> string -> string.

Local Abbreviation Proc := (M (Run B)).

Definition emit (e : Event) : Proc unit :=
  fun r => Some (Returned tt, mkRun (backend r) (trace r ++ [e])).

(** A request to a service: recorded, then answered by the backend. *)
Definition call {A} (e : Event) (op : B -> GoResult A * B) : Proc (GoResult A) :=
  fun r =>
    let (res, b') := op (backend r) in
    Some (Returned res, mkRun b' (trace r ++ [e])).

(** [config.LoadDefaultConfig(ctx)]: resolved from the ambient settings. *)
Definition config_LoadDefaultConfig : Proc (GoResult Config) :=
  fun r => Some (Returned (LoadDefaultConfig aws (backend r)), r).

Definition log_Printf (line : string) : Proc unit := emit (Logged line).
Definition log_Println (line : string) : Proc unit := emit (Logged line).

(** [log.Fatalf] is [Printf] followed by [os.Exit(1)]. *)
Definition log_Fatalf {A} (line : string) : Proc A :=
  log_Printf line ;; os_Exit 1.

(** [%v] of a [[]string]. *)
Definition fmt_strings (l : list string) : string :=
  "[" +:+ String.concat " " l +:+ "]".

Definition NilSafeString (s : option string) : string :=
  match s with
  | None => "<nil>"
  | Some v => v
  end.

(** [time.RFC3339]. *)
Definition RFC3339 : string := "2006-01-02T15:04:05Z07:00".

Definition NilSafeTime (tmp : option Time) (fmt : string) : string :=
  match tmp with
  | None => "<nil>"
  | Some t =>
      let fmt := if String.eqb fmt "" then RFC3339 else fmt in
      Time_Format t fmt
  end.

Definition getCallerIdentity (cfg : Config) : Proc (GoResult GetCallerIdentityOutput.t) :=
  let! r := call (CalledGetCallerIdentity cfg) (GetCallerIdentity aws cfg) in
  match r with
  | Err err =>
      log_Fatalf (A:=unit) ("Unable to get caller identity: " +:+ err) ;;
      ret (Err ("Unable to get caller identity: " +:+ err))
  | Ok output => ret (Ok output)
  end.

Definition getAWSRegions (cfg : Config) (allRegions : bool) : Proc (GoResult (list Region_)) :=
  let input := DescribeRegionsInput.mk (Some allRegions) in
  let! r := call (CalledDescribeRegions cfg input) (DescribeRegions aws cfg input) in
  match r with
  | Err err =>
      log_Fatalf (A:=unit) ("Unable to DescribeRegions: " +:+ err) ;;
      ret (Err ("failed to describe regions: " +:+ err))
  | Ok output => ret (Ok (DescribeRegionsOutput.Regions output))
  end.

(** The status filter of the request literal at [main.go:61-91]. *)
Definition StackStatusFilter_sent : list StackStatus :=
  [ StackStatusCreateInProgress;
    StackStatusCreateFailed;
    StackStatusCreateComplete;

    StackStatusRollbackInProgress;
    StackStatusRollbackFailed;
    StackStatusRollbackComplete;

    StackStatusDeleteInProgress;
    StackStatusDeleteFailed;
    (* StackStatusDeleteComplete, *)

    StackStatusUpdateInProgress;
    StackStatusUpdateFailed;
    StackStatusUpdateComplete;

    StackStatusUpdateRollbackInProgress;
    StackStatusUpdateRollbackFailed;
    StackStatusUpdateRollbackCompleteCleanupInProgress;
    StackStatusUpdateRollbackComplete;

    StackStatusReviewInProgress;

    StackStatusImportInProgress;
    StackStatusImportComplete;

    StackStatusImportRollbackInProgress;
    StackStatusImportRollbackFailed;
    StackStatusImportRollbackComplete ].

(** The [for] loop of [cloudFormationListStacks], from the values of its
    two locals; one unit of fuel per page request. *)
Fixpoint cloudFormationListStacks_loop (fuel : nat) (cfg : Config)
    (allStacks : list StackSummary) (nextToken : option string)
    : Proc (GoResult (list StackSummary)) :=
  match fuel with
  | O => out_of_fuel
  | S fuel' =>
      let input := ListStacksInput.mk nextToken StackStatusFilter_sent in
      let! r := call (CalledListStacks cfg input) (ListStacks aws cfg input) in
      match r with
      | Err err =>
          log_Fatalf (A:=unit) ("Unable to ListStacks: " +:+ err) ;;
          ret (Err ("failed to list stacks: " +:+ err))
      | Ok output =>
          let allStacks := allStacks ++ ListStacksOutput.StackSummaries output in
          match ListStacksOutput.NextToken output with
          | None => ret (Ok allStacks)
          | Some _ =>
              cloudFormationListStacks_loop fuel' cfg allStacks
                (ListStacksOutput.NextToken output)
          end
      end
  end.

Definition cloudFormationListStacks (fuel : nat) (cfg : Config)
    : Proc (GoResult (list StackSummary)) :=
  cloudFormationListStacks_loop fuel cfg [] None.

Fixpoint cloudFormationListStackResources_loop (fuel : nat) (cfg : Config)
    (stackID : string) (allStackResources : list StackResourceSummary)
    (nextToken : option string) : Proc (GoResult (list StackResourceSummary)) :=
  match fuel with
  | O => out_of_fuel
  | S fuel' =>
      let input := ListStackResourcesInput.mk (Some stackID) nextToken in
      let! r := call (CalledListStackResources cfg input)
                     (ListStackResources aws cfg input) in
      match r with
      | Err err =>
          log_Fatalf (A:=unit) ("Unable to ListStacks: " +:+ err) ;;
          ret (Err ("failed to list stacks: " +:+ err))
      | Ok output =>
          let allStackResources :=
            allStackResources ++ ListStackResourcesOutput.StackResourceSummaries output in
          match ListStackResourcesOutput.NextToken output with
          | None => ret (Ok allStackResources)
          | Some _ =>
              cloudFormationListStackResources_loop fuel' cfg stackID allStackResources
                (ListStackResourcesOutput.NextToken output)
          end
      end
  end.

Definition cloudFormationListStackResources (fuel : nat) (cfg : Config) (stackID : string)
    : Proc (GoResult (list StackResourceSummary)) :=
  cloudFormationListStackResources_loop fuel cfg stackID [] None.

(** The body of the resource loop of [main] ([main.go:229-239]). *)
Definition main_print_resource (verbose : bool) (stackResource : StackResourceSummary)
    : Proc unit :=
  if verbose then
    log_Println "  - Stack Resource:" ;;
    log_Printf ("     - Physical Resource Id: "
                +:+ NilSafeString (PhysicalResourceId stackResource)) ;;
    log_Printf ("     - Logical Resource Id: "
                +:+ NilSafeString (LogicalResourceId stackResource)) ;;
    log_Printf ("     - Resource Type: " +:+ NilSafeString (ResourceType stackResource)) ;;
    log_Printf ("     - Status: " +:+ ResourceStatus stackResource) ;;
    log_Printf ("     - Status Reason: "
                +:+ NilSafeString (ResourceStatusReason stackResource)) ;;
    log_Printf ("     - Last Updated Time: "
                +:+ NilSafeTime (LastUpdatedTimestamp stackResource) "")
  else ret tt.

(** The report of one stack ([main.go:210-221]). *)
Definition main_print_stack (verbose : bool) (stack : StackSummary) : Proc unit :=
  if verbose then
    log_Println "- Stack:" ;;
    log_Printf ("  - Id: " +:+ NilSafeString (StackId stack)) ;;
    log_Printf ("  - Name: " +:+ NilSafeString (StackName stack)) ;;
    log_Printf ("  - Status: " +:+ StackStatus_String (StackStatus_ stack)) ;;
    log_Printf ("  - Status Reason: " +:+ NilSafeString (StackStatusReason stack)) ;;
    log_Printf ("  - Parent Id: " +:+ NilSafeString (ParentId stack)) ;;
    log_Printf ("  - Root Id: " +:+ NilSafeString (RootId stack)) ;;
    log_Printf ("  - Creation Time: " +:+ NilSafeTime (CreationTime stack) "") ;;
    log_Printf ("  - Last Updated Time: " +:+ NilSafeTime (LastUpdatedTime stack) "") ;;
    log_Printf ("  - Deletion Time: " +:+ NilSafeTime (DeletionTime stack) "")
  else ret tt.

(** The body of the stack loop of [main] ([main.go:209-240]). *)
Definition main_stack (fuel : nat) (verbose : bool) (cfg : Config) (stack : StackSummary)
    : Proc unit :=
  main_print_stack verbose stack ;;
  let! stackID := deref (StackId stack) in
  let! r := cloudFormationListStackResources fuel cfg stackID in
  match r with
  | Err srerr =>
      log_Printf ("Error calling cloudFormationListStackResources: " +:+ srerr)
      (* continue *)
  | Ok stackResources => for_range stackResources (main_print_resource verbose)
  end.

(** The body of the region loop of [main] ([main.go:200-243]). *)
Definition main_region (fuel : nat) (verbose : bool) (cfg : Config) (regionName : string)
    : Proc unit :=
  log_Printf ("- Region: " +:+ regionName) ;;
  let! r := cloudFormationListStacks fuel cfg in
  match r with
  | Err serr =>
      log_Printf ("Error calling cloudFormationListStacks: " +:+ serr)
      (* continue *)
  | Ok stacks =>
      for_range stacks (main_stack fuel verbose cfg) ;;
      log_Println ""
  end.

Definition main (fuel : nat) : Proc unit :=
  let verbose := true in
  let region := Getenv env "AWS_REGION" in
  let region := if String.eqb region "" then "us-west-2"%string else region in
  let! r := config_LoadDefaultConfig in
  match r with
  | Err cerr => log_Fatalf (A:=unit) ("Unable to load AWS configuration: " +:+ cerr) ;; ret tt
  | Ok cfg =>
      let! r := getCallerIdentity cfg in
      match r with
      | Err ierr =>
          log_Fatalf (A:=unit) ("Unable to load AWS Caller Identity: " +:+ ierr) ;; ret tt
      | Ok identity_ =>
          (if verbose then
             let! account := deref (GetCallerIdentityOutput.Account identity_) in
             log_Printf ("AWS Account ID: " +:+ account) ;;
             let! userId := deref (GetCallerIdentityOutput.UserId identity_) in
             log_Printf ("AWS User ID: " +:+ userId) ;;
             let! arn := deref (GetCallerIdentityOutput.Arn identity_) in
             log_Printf ("AWS ARN: " +:+ arn) ;;
             log_Println ""
           else ret tt) ;;
          let! r := getAWSRegions cfg false in
          match r with
          | Err rerr =>
              log_Fatalf (A:=unit) ("Unable to load AWS Regions: " +:+ rerr) ;; ret tt
          | Ok regions =>
              let allRegionNames := [region] in
              let! allRegionNames :=
                for_range_acc regions allRegionNames (fun allRegionNames region =>
                  match RegionName region with
                  | Some name =>
                      (if verbose then log_Printf ("Adding region '" +:+ name +:+ "'")
                       else ret tt) ;;
                      ret (allRegionNames ++ [name])
                  | None => ret allRegionNames
                  end) in
              log_Printf ("All detected AWS Regions: " +:+ fmt_strings allRegionNames) ;;
              log_Println "Checking each region for stacks..." ;;
              for_range allRegionNames (main_region fuel verbose cfg)
          end
      end
  end.

End Program.

(** ** Backends as the enumerations see them *)

Section Served.

Context {B : Type}.
Variable aws : AWS B.

(** The pages a backend serves to the stack enumeration of a client built
    from [cfg]: asked with token [tok] in state [b], it answers with the
    outputs [outs], one request after the other, each request carrying the
    token of the previous answer; only the last answer has no continuation
    token, and [b'] is the state the backend is left in. *)
Inductive serves_stacks (cfg : Config)
  : B -> option string -> list ListStacksOutput.t -> B -> Prop :=
| serves_stacks_last b tok items b' :
    ListStacks aws cfg (ListStacksInput.mk tok StackStatusFilter_sent) b
      = (Ok (ListStacksOutput.mk items None), b') ->
    serves_stacks cfg b tok [ListStacksOutput.mk items None] b'
| serves_stacks_more b tok items tok' b1 outs b' :
    ListStacks aws cfg (ListStacksInput.mk tok StackStatusFilter_sent) b
      = (Ok (ListStacksOutput.mk items (Some tok')), b1) ->
    serves_stacks cfg b1 (Some tok') outs b' ->
    serves_stacks cfg b tok (ListStacksOutput.mk items (Some tok') :: outs) b'.

(** The requests that fetch those pages, starting with token [tok]. *)
Fixpoint stack_requests (tok : option string) (outs : list ListStacksOutput.t)
    : list ListStacksInput.t :=
  match outs with
  | [] => []
  | out :: rest =>
      ListStacksInput.mk tok StackStatusFilter_sent
        :: stack_requests (ListStacksOutput.NextToken out) rest
  end.

(** The same for the resources of the stack [stackID]. *)
Inductive serves_resources (cfg : Config) (stackID : string)
  : B -> option string -> list ListStackResourcesOutput.t -> B -> Prop :=
| serves_resources_last b tok items b' :
    ListStackResources aws cfg (ListStackResourcesInput.mk (Some stackID) tok) b
      = (Ok (ListStackResourcesOutput.mk items None), b') ->
    serves_resources cfg stackID b tok [ListStackResourcesOutput.mk items None] b'
| serves_resources_more b tok items tok' b1 outs b' :
    ListStackResources aws cfg (ListStackResourcesInput.mk (Some stackID) tok) b
      = (Ok (ListStackResourcesOutput.mk items (Some tok')), b1) ->
    serves_resources cfg stackID b1 (Some tok') outs b' ->
    serves_resources cfg stackID b tok
      (ListStackResourcesOutput.mk items (Some tok') :: outs) b'.

Fixpoint resource_requests (stackID : string) (tok : option string)
    (outs : list ListStackResourcesOutput.t) : list ListStackResourcesInput.t :=
  match outs with
  | [] => []
  | out :: rest =>
      ListStackResourcesInput.mk (Some stackID) tok
        :: resource_requests stackID (ListStackResourcesOutput.NextToken out) rest
  end.

(** A backend that applies the status filter of the request: every stack
    it returns has one of the statuses asked for. *)
Definition honours_filter : Prop :=
  forall cfg input b out b',
    ListStacks aws cfg input b = (Ok out, b') ->
    Forall (fun stack => In (StackStatus_ stack) (ListStacksInput.StackStatusFilter input))
           (ListStacksOutput.StackSummaries out).

End Served.

(** The requests for stacks and for resources found in a trace. *)
Definition stack_calls (tr : list Event) : list (Config * ListStacksInput.t) :=
  flat_map (fun e => match e with CalledListStacks cfg input => [(cfg, input)] | _ => [] end) tr.

Definition resource_calls (tr : list Event) : list (Config * ListStackResourcesInput.t) :=
  flat_map (fun e =>
    match e with CalledListStackResources cfg input => [(cfg, input)] | _ => [] end) tr.

Definition log_lines (tr : list Event) : list string :=
  flat_map (fun e => match e with Logged line => [line] | _ => [] end) tr.

(** ** Failing and endless backends, and what a scan reports *)

Section Reports.

Context {B : Type}.
Variable aws : AWS B.
Variable Time_Format : Time -> string -> string.

(** The backend serves the pages [outs], each with a continuation token,
    and answers the request after them with the error [err]. *)
Inductive fails_stacks (cfg : Config)
  : B -> option string -> list ListStacksOutput.t -> error -> B -> Prop :=
| fails_stacks_now b tok err b' :
    ListStacks aws cfg (ListStacksInput.mk tok StackStatusFilter_sent) b = (Err err, b') ->
    fails_stacks cfg b tok [] err b'
| fails_stacks_later b tok items tok' b1 outs err b' :
    ListStacks aws cfg (ListStacksInput.mk tok StackStatusFilter_sent) b
      = (Ok (ListStacksOutput.mk items (Some tok')), b1) ->
    fails_stacks cfg b1 (Some tok') outs err b' ->
    fails_stacks cfg b tok (ListStacksOutput.mk items (Some tok') :: outs) err b'.

Inductive fails_resources (cfg : Config) (stackID : string)
  : B -> option string -> list ListStackResourcesOutput.t -> error -> B -> Prop :=
| fails_resources_now b tok err b' :
    ListStackResources aws cfg (ListStackResourcesInput.mk (Some stackID) tok) b
      = (Err err, b') ->
    fails_resources cfg stackID b tok [] err b'
| fails_resources_later b tok items tok' b1 outs err b' :
    ListStackResources aws cfg (ListStackResourcesInput.mk (Some stackID) tok) b
      = (Ok (ListStackResourcesOutput.mk items (Some tok')), b1) ->
    fails_resources cfg stackID b1 (Some tok') outs err b' ->
    fails_resources cfg stackID b tok
      (ListStackResourcesOutput.mk items (Some tok') :: outs) err b'.

(** The token of the request that follows the pages [outs], the first of
    which was asked for with [tok]. *)
Definition stack_token_after (tok : option string) (outs : list ListStacksOutput.t)
    : option string :=
  match last outs with
  | Some out => ListStacksOutput.NextToken out
  | None => tok
  end.

Definition resource_token_after (tok : option string)
    (outs : list ListStackResourcesOutput.t) : option string :=
  match last outs with
  | Some out => ListStackResourcesOutput.NextToken out
  | None => tok
  end.

(** A backend that answers every stack listing, and every resource
    listing, with a page and a continuation token. *)
Definition endless_stacks (cfg : Config) : Prop :=
  forall input b, exists items tok b',
    ListStacks aws cfg input b = (Ok (ListStacksOutput.mk items (Some tok)), b').

Definition endless_resources (cfg : Config) : Prop :=
  forall input b, exists items tok b',
    ListStackResources aws cfg input b
    = (Ok (ListStackResourcesOutput.mk items (Some tok)), b').

(** The lines of the report of a stack, and of a resource. *)
Definition stack_lines (stack : StackSummary) : list string :=
  [ "- Stack:"%string;
    "  - Id: " +:+ NilSafeString (StackId stack);
    "  - Name: " +:+ NilSafeString (StackName stack);
    "  - Status: " +:+ StackStatus_String (StackStatus_ stack);
    "  - Status Reason: " +:+ NilSafeString (StackStatusReason stack);
    "  - Parent Id: " +:+ NilSafeString (ParentId stack);
    "  - Root Id: " +:+ NilSafeString (RootId stack);
    "  - Creation Time: " +:+ NilSafeTime Time_Format (CreationTime stack) "";
    "  - Last Updated Time: " +:+ NilSafeTime Time_Format (LastUpdatedTime stack) "";
    "  - Deletion Time: " +:+ NilSafeTime Time_Format (DeletionTime stack) "" ].

Definition resource_lines (stackResource : StackResourceSummary) : list string :=
  [ "  - Stack Resource:"%string;
    "     - Physical Resource Id: " +:+ NilSafeString (PhysicalResourceId stackResource);
    "     - Logical Resource Id: " +:+ NilSafeString (LogicalResourceId stackResource);
    "     - Resource Type: " +:+ NilSafeString (ResourceType stackResource);
    "     - Status: " +:+ ResourceStatus stackResource;
    "     - Status Reason: " +:+ NilSafeString (ResourceStatusReason stackResource);
    "     - Last Updated Time: "
      +:+ NilSafeTime Time_Format (LastUpdatedTimestamp stackResource) "" ].

(** What the scan of one stack with identifier [stackID] adds to the
    trace, when its resources come in the pages [outs]: the report of the
    stack, the requests for the pages, the report of every resource. *)
Definition stack_scan (cfg : Config) (stackID : string) (stack : StackSummary)
    (outs : list ListStackResourcesOutput.t) : list Event :=
  map Logged (stack_lines stack)
  ++ map (CalledListStackResources cfg) (resource_requests stackID None outs)
  ++ map Logged
       (flat_map resource_lines
          (concat (map ListStackResourcesOutput.StackResourceSummaries outs))).

(** The backend serves the resources of every stack of a list, one stack
    after the other, each in at most [fuel] pages; the events are what the
    scans of these stacks add to the trace. *)
Inductive serves_scans (cfg : Config) (fuel : nat)
  : list StackSummary -> B -> list Event -> B -> Prop :=
| serves_scans_nil b : serves_scans cfg fuel [] b [] b
| serves_scans_cons stack stackID rest b outs b1 evs b' :
    StackId stack = Some stackID ->
    serves_resources aws cfg stackID b None outs b1 ->
    (length outs <= fuel)%nat ->
    serves_scans cfg fuel rest b1 evs b' ->
    serves_scans cfg fuel (stack :: rest) b (stack_scan cfg stackID stack outs ++ evs) b'.

(** The names of the regions that have one. *)
Definition region_names (regions : list Region_) : list string :=
  omap RegionName regions.

(** An event that is a log line or a request sent through [cfg]. *)
Definition through (cfg : Config) (e : Event) : Prop :=
  match e with
  | Logged _ => True
  | CalledGetCallerIdentity c | CalledDescribeRegions c _
  | CalledListStacks c _ | CalledListStackResources c _ => c = cfg
  end.

(** Whenever [m] ends, it has added to the trace only events that
    satisfy [Q]. *)
Definition adds {A} (Q : Event -> Prop) (m : M (Run B) A) : Prop :=
  forall run o run',
    m run = Some (o, run') ->
    exists ext, trace run' = trace run ++ ext /\ Forall Q ext.

End Reports.

(** ** Fake backends *)

Module Fake.

(** A stand-in for [time.Time.Format]. *)
Definition Format (t : Time) (layout : string) : string :=
  layout +:+ (if Z.eqb (Time_sec t) 0 then "@epoch" else "@later").

(** The configuration every fake resolves to. *)
Definition config : Config := mkConfig "us-west-2".

Definition whoami : GetCallerIdentityOutput.t :=
  GetCallerIdentityOutput.mk (Some "123456789012") (Some "AIDAEXAMPLE")
    (Some "arn:aws:iam::123456789012:user/dev").

Definition stack (id : option string) (status : StackStatus) : StackSummary :=
  mkStackSummary id id status None None None (Some (mkTime 0 0)) None None.

Definition resource (id : string) : StackResourceSummary :=
  mkStackResourceSummary (Some id) (Some id) (Some "AWS::SQS::Queue") "CREATE_COMPLETE"
    None None.

(** A stateless account: [regions] are the enabled regions, [stacks r] the
    stacks of region [r], [resources id] the answer to a resource listing of
    the stack [id]. The stack listing applies the status filter of the
    request and answers in one page; the configuration resolves to
    [us-west-2]. *)
Definition account (regions : list string) (stacks : string -> list StackSummary)
    (resources : string -> GoResult (list StackResourceSummary)) : AWS unit :=
  mkAWS unit
    (fun _ => Ok config)
    (fun _ b => (Ok whoami, b))
    (fun _ _ b => (Ok (DescribeRegionsOutput.mk (map (fun r => mkRegion (Some r)) regions)), b))
    (fun cfg input b =>
       (Ok (ListStacksOutput.mk
              (filter (fun s => StackStatus_ s ∈ ListStacksInput.StackStatusFilter input)
                      (stacks (Region cfg)))
              None), b))
    (fun _ input b =>
       (match resources (default ""%string (ListStackResourcesInput.StackName input)) with
        | Ok l => Ok (ListStackResourcesOutput.mk l None)
        | Err e => Err e
        end, b)).

(** Three stacks; listing the resources of the second one fails. *)
Definition second_fails : AWS unit :=
  account []
    (fun _ => [stack (Some "A") StackStatusCreateComplete;
               stack (Some "B") StackStatusCreateComplete;
               stack (Some "C") StackStatusCreateComplete])
    (fun id => if String.eqb id "B" then Err "AccessDenied"%string
               else Ok [resource (id +:+ "-queue")]).

(** An account in which the stack listing itself is refused. *)
Definition listing_denied : AWS unit :=
  mkAWS unit
    (fun _ => Ok config)
    (fun _ b => (Ok whoami, b))
    (fun _ _ b => (Ok (DescribeRegionsOutput.mk [mkRegion (Some "eu-west-1"%string)]), b))
    (fun _ _ b => (Err "AccessDenied"%string, b))
    (fun _ _ b => (Ok (ListStackResourcesOutput.mk [] None), b)).

(** Two regions with one stack each. *)
Definition two_regions : AWS unit :=
  account ["eu-west-1"%string]
    (fun r => if String.eqb r "us-west-2" then [stack (Some "west") StackStatusCreateComplete]
              else if String.eqb r "eu-west-1"
                   then [stack (Some "europe") StackStatusCreateComplete]
              else [])
    (fun id => Ok [resource (id +:+ "-queue")]).

(** A stack summary without an identifier. *)
Definition nameless_stack : AWS unit :=
  account [] (fun _ => [stack None StackStatusCreateComplete]) (fun _ => Ok []).

(** A region whose stacks are in three different statuses. *)
Definition three_statuses : AWS unit :=
  account []
    (fun _ => [stack (Some "live") StackStatusCreateComplete;
               stack (Some "cleaning") StackStatusUpdateCompleteCleanupInProgress;
               stack (Some "gone") StackStatusDeleteComplete])
    (fun _ => Ok []).

(** A backend that pages: two stacks, then one; the stack [A] has its
    resources on two pages as well, the others have none. The state counts
    the requests answered. *)
Definition paged : AWS nat :=
  mkAWS nat
    (fun _ => Ok config)
    (fun _ b => (Ok whoami, b))
    (fun _ _ b => (Ok (DescribeRegionsOutput.mk []), b))
    (fun _ input b =>
       (match ListStacksInput.NextToken input with
        | None =>
            Ok (ListStacksOutput.mk [stack (Some "A") StackStatusCreateComplete;
                                     stack (Some "B") StackStatusUpdateComplete]
                                    (Some "page-2"%string))
        | Some _ =>
            Ok (ListStacksOutput.mk [stack (Some "C") StackStatusRollbackComplete] None)
        end, S b))
    (fun _ input b =>
       (match ListStackResourcesInput.StackName input, ListStackResourcesInput.NextToken input with
        | Some "A"%string, None =>
            Ok (ListStackResourcesOutput.mk [resource "q1"] (Some "more"%string))
        | Some "A"%string, Some _ =>
            Ok (ListStackResourcesOutput.mk [resource "q2"; resource "q3"] None)
        | _, _ => Ok (ListStackResourcesOutput.mk [] None)
        end, S b)).

(** Backends whose set-up calls fail: no configuration, no identity, no
    regions. *)
Definition no_configuration : AWS unit :=
  mkAWS unit
    (fun _ => Err "no credentials"%string)
    (fun _ b => (Ok whoami, b))
    (fun _ _ b => (Ok (DescribeRegionsOutput.mk []), b))
    (fun _ _ b => (Ok (ListStacksOutput.mk [] None), b))
    (fun _ _ b => (Ok (ListStackResourcesOutput.mk [] None), b)).

Definition no_identity : AWS unit :=
  mkAWS unit
    (fun _ => Ok config)
    (fun _ b => (Err "ExpiredToken"%string, b))
    (fun _ _ b => (Ok (DescribeRegionsOutput.mk []), b))
    (fun _ _ b => (Ok (ListStacksOutput.mk [] None), b))
    (fun _ _ b => (Ok (ListStackResourcesOutput.mk [] None), b)).

Definition no_regions : AWS unit :=
  mkAWS unit
    (fun _ => Ok config)
    (fun _ b => (Ok whoami, b))
    (fun _ _ b => (Err "UnauthorizedOperation"%string, b))
    (fun _ _ b => (Ok (ListStacksOutput.mk [] None), b))
    (fun _ _ b => (Ok (ListStackResourcesOutput.mk [] None), b)).

(** An identity without an ARN. *)
Definition no_arn : AWS unit :=
  mkAWS unit
    (fun _ => Ok config)
    (fun _ b => (Ok (GetCallerIdentityOutput.mk (Some "123456789012"%string)
                       (Some "AIDAEXAMPLE"%string) None), b))
    (fun _ _ b => (Ok (DescribeRegionsOutput.mk []), b))
    (fun _ _ b => (Ok (ListStacksOutput.mk [] None), b))
    (fun _ _ b => (Ok (ListStackResourcesOutput.mk [] None), b)).

(** Regions of which one has no name and one is the configured region. *)
Definition three_regions : list Region_ :=
  [mkRegion (Some "eu-west-1"%string); mkRegion None; mkRegion (Some "us-west-2"%string)].

Definition odd_regions : AWS unit :=
  mkAWS unit
    (fun _ => Ok config)
    (fun _ b => (Ok whoami, b))
    (fun _ _ b => (Ok (DescribeRegionsOutput.mk three_regions), b))
    (fun _ _ b => (Ok (ListStacksOutput.mk [] None), b))
    (fun _ _ b => (Ok (ListStackResourcesOutput.mk [] None), b)).

(** A backend that serves one page of each listing and fails on the
    second. *)
Definition breaks_on_second_page : AWS nat :=
  mkAWS nat
    (fun _ => Ok config)
    (fun _ b => (Ok whoami, b))
    (fun _ _ b => (Ok (DescribeRegionsOutput.mk []), b))
    (fun _ input b =>
       (match ListStacksInput.NextToken input with
        | None =>
            Ok (ListStacksOutput.mk [stack (Some "A"%string) StackStatusCreateComplete]
                  (Some "page-2"%string))
        | Some _ => Err "Throttling"%string
        end, S b))
    (fun _ input b =>
       (match ListStackResourcesInput.NextToken input with
        | None => Ok (ListStackResourcesOutput.mk [resource "q1"] (Some "more"%string))
        | Some _ => Err "Throttling"%string
        end, S b)).

(** A backend whose every answer announces another page. *)
Definition endless : AWS nat :=
  mkAWS nat
    (fun _ => Ok config)
    (fun _ b => (Ok whoami, b))
    (fun _ _ b => (Ok (DescribeRegionsOutput.mk []), b))
    (fun _ _ b => (Ok (ListStacksOutput.mk [] (Some "again"%string)), S b))
    (fun _ _ b => (Ok (ListStackResourcesOutput.mk [] (Some "again"%string)), S b)).

End Fake.

End ScanStacks.

(* ===================================================================== *)
(** * The task log fetcher *)
(* ===================================================================== *)

Module TaskLogs.

(** ** Integers and time *)

(** [int64] arithmetic wraps around. *)
Definition wrap64 (z : Z) : Z := (z + 2 ^ 63) mod 2 ^ 64 - 2 ^ 63.
Definition mul64 (a b : Z) : Z := wrap64 (a * b).

Definition UnixTimeFactor : Z := 1000.

(** [time.Hour], a [Duration] in nanoseconds. *)
Definition time_Hour : Z := 3600 * 1000000000.

(** [Time.Add]: the duration is split into seconds and nanoseconds by
    truncated division, and the nanoseconds are carried. *)
Definition Time_Add (t : Time) (d : Z) : Time :=
  let dsec := Z.quot d 1000000000 in
  let nsec := Time_nsec t + Z.rem d 1000000000 in
  if 1000000000 <=? nsec then mkTime (Time_sec t + dsec + 1) (nsec - 1000000000)
  else if nsec <? 0 then mkTime (Time_sec t + dsec - 1) (nsec + 1000000000)
  else mkTime (Time_sec t + dsec) nsec.

(** [Time.Unix]: whole seconds since the epoch. *)
Definition Time_Unix (t : Time) : Z := Time_sec t.

(** [time.Unix(sec, nsec)], which brings [nsec] into a second. *)
Definition time_Unix (sec nsec : Z) : Time :=
  if (nsec <? 0) || (1000000000 <=? nsec) then
    let n := Z.quot nsec 1000000000 in
    let sec := sec + n in
    let nsec := nsec - n * 1000000000 in
    if nsec <? 0 then mkTime (sec - 1) (nsec + 1000000000) else mkTime sec nsec
  else mkTime sec nsec.

(** [time.UnixMilli]. *)
Definition time_UnixMilli (msec : Z) : Time :=
  time_Unix (Z.quot msec 1000) (Z.rem msec 1000 * 1000000).

(** The characters [\t] and [\n] of a Go string literal. *)
Definition tab : string := String "009"%char EmptyString.
Definition newline : string := String "010"%char EmptyString.

(** ** API data *)

Record Config := mkConfig { Region : string }.

(** [*ecs.Client] and [*cloudwatchlogs.Client], each built from a
    configuration. *)
Record ecs_Client := mkEcsClient { ecs_config : Config }.
Record cloudwatchlogs_Client := mkLogsClient { logs_config : Config }.

(** [ecsTypes.Container] and [ecsTypes.Task], the fields that are read. *)
Record Container := mkContainer { Name : option string }.
Record Task := mkTask { Containers : list Container }.

Module DescribeTasksInput.
Record t := mk { Cluster : option string; Tasks : list string }.
End DescribeTasksInput.

Module DescribeTasksOutput.
Record t := mk { Tasks : list Task }.
End DescribeTasksOutput.

Module GetLogEventsInput.
Record t := mk {
  LogGroupName : option string;
  LogStreamName : option string;
  StartTime : option Z;
  EndTime : option Z
}.
End GetLogEventsInput.

(** [cwlTypes.OutputLogEvent]. *)
Record OutputLogEvent := mkEvent { Timestamp : option Z; Message : option string }.

Module GetLogEventsOutput.
Record t := mk { Events : list OutputLogEvent; NextForwardToken : option string }.
End GetLogEventsOutput.

(** What a run leaves behind, in order. *)
Inductive Event : Type :=
| Printed (text : string)
| Logged (line : string)
| LoadedConfig (region : string)
| CalledDescribeTasks (client : ecs_Client) (input : DescribeTasksInput.t)
| NewPaginator (client : cloudwatchlogs_Client) (input : GetLogEventsInput.t)
| CalledNextPage.

(** The SDK and the services behind it, over a backend state [B] and the
    state [P] of a [GetLogEventsPaginator]; [Now] is the clock. *)
Record AWS (B P : Type) := mkAWS {
  LoadDefaultConfig : string -> B -> GoResult Config;
  DescribeTasks : ecs_Client -> DescribeTasksInput.t -> B -> GoResult DescribeTasksOutput.t * B;
  NewGetLogEventsPaginator : cloudwatchlogs_Client -> GetLogEventsInput.t -> P;
  HasMorePages : P -> bool;
  NextPage : P -> B -> GoResult GetLogEventsOutput.t * P * B;
  Now : B -> Time
}.
Arguments LoadDefaultConfig {B P} _ _ _.
Arguments DescribeTasks {B P} _ _ _ _.
Arguments NewGetLogEventsPaginator {B P} _ _ _.
Arguments HasMorePages {B P} _ _.
Arguments NextPage {B P} _ _ _.
Arguments Now {B P} _ _.

Record Run (B : Type) := mkRun { backend : B; trace : list Event }.
Arguments mkRun {B} _ _.
Arguments backend {B} _.
Arguments trace {B} _.

(** ** The program *)

Section Program.

Context {B P : Type}.

(** The SDK, the process environment, and [time.Time.String] (which
    renders in the local time zone). *)
Variable aws : AWS B P.
Variable env : gmap string string.
Variable Time_String : Time -> string.

Local Abbreviation Proc := (M (Run B)).

Definition emit (e : Event) : Proc unit :=
  fun r => Some (Returned tt, mkRun (backend r) (trace r ++ [e])).

Definition fmt_Printf (text : string) : Proc unit := emit (Printed text).

Definition log_Fatalf {A} (line : string) : Proc A :=
  emit (Logged line) ;; os_Exit 1.

Definition time_Now : Proc Time :=
  fun r => Some (Returned (Now aws (backend r)), r).

(** [config.LoadDefaultConfig(ctx, config.WithRegion(region))]. *)
Definition config_LoadDefaultConfig (region : string) : Proc (GoResult Config) :=
  fun r =>
    Some (Returned (LoadDefaultConfig aws region (backend r)),
          mkRun (backend r) (trace r ++ [LoadedConfig region])).

Definition getECSClient (region : string) : Proc (GoResult ecs_Client) :=
  let! r := config_LoadDefaultConfig region in
  match r with
  | Err err => ret (Err ("unable to load SDK config, " +:+ err))
  | Ok cfg => ret (Ok (mkEcsClient cfg))
  end.

Definition getCloudWatchLogsClient (region : string) : Proc (GoResult cloudwatchlogs_Client) :=
  let! r := config_LoadDefaultConfig region in
  match r with
  | Err err => ret (Err ("unable to load SDK config, " +:+ err))
  | Ok cfg => ret (Ok (mkLogsClient cfg))
  end.

(** [l[i]]: out of range panics. *)
Definition index {A} (l : list A) (i : nat) : Proc A :=
  match l !! i with
  | Some x => ret x
  | None => panic "runtime error: index out of range"
  end.

Definition getTaskLogStreamName (ecsClient : ecs_Client) (cluster taskID : string)
    : Proc (GoResult string) :=
  let input := DescribeTasksInput.mk (Some cluster) [taskID] in
  let! r := (fun run =>
               let (res, b') := DescribeTasks aws ecsClient input (backend run) in
               Some (Returned res,
                     mkRun b' (trace run ++ [CalledDescribeTasks ecsClient input]))) in
  match r with
  | Err err => ret (Err ("failed to describe tasks: " +:+ err))
  | Ok resp =>
      if Nat.eqb (length (DescribeTasksOutput.Tasks resp)) 0 then
        ret (Err "task not found"%string)
      else
        let! task := index (DescribeTasksOutput.Tasks resp) 0 in
        if Nat.eqb (length (Containers task)) 0 then
          ret (Err "no containers found in task"%string)
        else
          let! container := index (Containers task) 0 in
          let! name := deref (Name container) in
          ret (Ok name)
  end.

(** The line [getLogEvents] prints for one event. *)
Definition print_event (event : OutputLogEvent) : Proc unit :=
  let! ts := deref (Timestamp event) in
  let! msg := deref (Message event) in
  fmt_Printf (Time_String (time_UnixMilli ts) +:+ tab +:+ msg +:+ newline).

(** The paginator loop of [getLogEvents]; one unit of fuel per test of
    [HasMorePages]. The result is the returned [error], [None] for nil. *)
Fixpoint getLogEvents_loop (fuel : nat) (paginator : P) : Proc (option error) :=
  match fuel with
  | O => out_of_fuel
  | S fuel' =>
      if HasMorePages aws paginator then
        let! next :=
          (fun run =>
             let '(res, p', b') := NextPage aws paginator (backend run) in
             Some (Returned (res, p'), mkRun b' (trace run ++ [CalledNextPage]))) in
        let (page, paginator') := next in
        match page with
        | Err err => ret (Some ("failed to get log events: " +:+ err))
        | Ok page =>
            for_range (GetLogEventsOutput.Events page) print_event ;;
            getLogEvents_loop fuel' paginator'
        end
      else ret None
  end.

Definition getLogEvents (fuel : nat) (cwLogsClient : cloudwatchlogs_Client)
    (logGroupName logStreamName : string) : Proc (option error) :=
  let! endTime := time_Now in
  let startTime := Time_Add endTime (-1 * time_Hour) in
  let input := GetLogEventsInput.mk (Some logGroupName) (Some logStreamName)
                 (Some (mul64 (Time_Unix startTime) UnixTimeFactor))
                 (Some (mul64 (Time_Unix endTime) UnixTimeFactor)) in
  emit (NewPaginator cwLogsClient input) ;;
  let paginator := NewGetLogEventsPaginator aws cwLogsClient input in
  getLogEvents_loop fuel paginator.

Definition main (fuel : nat) : Proc unit :=
  let region := Getenv env "AWS_REGION" in
  let region := if String.eqb region "" then "us-west-2"%string else region in
  let cluster := Getenv env "ECS_CLUSTER" in
  (if String.eqb cluster "" then panic "ECS_CLUSTER environment variable is required"
   else ret tt) ;;
  let taskID := Getenv env "ECS_TASK_ID" in
  (if String.eqb taskID "" then panic "ECS_TASK_ID environment variable is required"
   else ret tt) ;;
  let logGroupName := Getenv env "LOG_GROUP_NAME" in
  (if String.eqb logGroupName "" then panic "LOG_GROUP_NAME environment variable is required"
   else ret tt) ;;
  let! r := getECSClient region in
  let! ecsClient :=
    match r with
    | Err err => log_Fatalf ("failed to create ECS client: " +:+ err)
    | Ok c => ret c
    end in
  let! r := getCloudWatchLogsClient region in
  let! cwLogsClient :=
    match r with
    | Err err => log_Fatalf ("failed to create CloudWatch Logs client: " +:+ err)
    | Ok c => ret c
    end in
  let! r := getTaskLogStreamName ecsClient cluster taskID in
  let! logStreamName :=
    match r with
    | Err err => log_Fatalf ("failed to get log stream name: " +:+ err)
    | Ok name => ret name
    end in
  fmt_Printf ("Log Stream Name: " +:+ logStreamName +:+ newline) ;;
  let! err := getLogEvents fuel cwLogsClient logGroupName logStreamName in
  match err with
  | Some err => log_Fatalf ("failed to get log events: " +:+ err)
  | None => ret tt
  end.

End Program.

(** ** The pages a paginator serves *)

Section Served.

Context {B P : Type}.
Variable aws : AWS B P.
Variable Time_String : Time -> string.

(** From the paginator state [p] and the backend state [b], the paginator
    reports more pages and hands out [pages] one by one, then reports that
    there are no more; [b'] is the state the backend is left in. *)
Inductive serves_pages : P -> B -> list GetLogEventsOutput.t -> B -> Prop :=
| serves_pages_done p b :
    HasMorePages aws p = false ->
    serves_pages p b [] b
| serves_pages_next p b page p' b1 pages b' :
    HasMorePages aws p = true ->
    NextPage aws p b = (Ok page, p', b1) ->
    serves_pages p' b1 pages b' ->
    serves_pages p b (page :: pages) b'.

(** An event that carries both of its fields. *)
Definition complete (event : OutputLogEvent) : Prop :=
  is_Some (Timestamp event) /\ is_Some (Message event).

(** The output line of an event: its time as [time.Time.String] renders
    the millisecond epoch, a tab, the message, a newline. *)
Definition event_line (event : OutputLogEvent) : string :=
  Time_String (time_UnixMilli (default 0 (Timestamp event)))
    +:+ tab +:+ default ""%string (Message event) +:+ newline.

(** What fetching and printing [pages] adds to the trace. *)
Definition page_trace (pages : list GetLogEventsOutput.t) : list Event :=
  flat_map (fun page =>
    CalledNextPage :: map (fun e => Printed (event_line e)) (GetLogEventsOutput.Events page))
    pages.

End Served.

(** ** Paginators that fail or never finish *)

Section Failing.

Context {B P : Type}.
Variable aws : AWS B P.

(** The paginator hands out [pages] and then, still reporting more pages,
    answers with the error [err]. *)
Inductive fails_pages : P -> B -> list GetLogEventsOutput.t -> error -> B -> Prop :=
| fails_pages_now p b err p' b' :
    HasMorePages aws p = true ->
    NextPage aws p b = (Err err, p', b') ->
    fails_pages p b [] err b'
| fails_pages_later p b page p' b1 pages err b' :
    HasMorePages aws p = true ->
    NextPage aws p b = (Ok page, p', b1) ->
    fails_pages p' b1 pages err b' ->
    fails_pages p b (page :: pages) err b'.

(** A paginator that, in every state satisfying [Inv], reports more pages
    and hands out a page of complete events, ending in such a state
    again. *)
Definition endless_pages (Inv : P -> Prop) : Prop :=
  forall p, Inv p ->
    HasMorePages aws p = true
    /\ forall b, exists page p' b',
         NextPage aws p b = (Ok page, p', b')
         /\ Inv p'
         /\ Forall complete (GetLogEventsOutput.Events page).

End Failing.

(** Standard output, as found in a trace. *)
Definition printed (tr : list Event) : list string :=
  flat_map (fun e => match e with Printed text => [text] | _ => [] end) tr.

(** ** Fake services *)

Module Fake.

(** A stand-in for [time.Time.String]: seconds and nanoseconds. *)
Definition String_ (t : Time) : string :=
  pretty (Time_sec t) +:+ "." +:+ pretty (Time_nsec t).

(** A paginator in the manner of the SDK's: it asks for the first page,
    then follows the forward token until an answer carries none. *)
Record Paginator := mkPaginator {
  params : GetLogEventsInput.t;
  firstPage : bool;
  nextToken : option string
}.

(** A log service that answers a request by [script] from the token asked
    for, a task service that answers [tasks], and a clock that shows [now];
    the backend state counts the requests answered. *)
Definition services (now : Time) (tasks : GoResult DescribeTasksOutput.t)
    (script : option string -> GoResult GetLogEventsOutput.t) : AWS nat Paginator :=
  mkAWS nat Paginator
    (fun region _ => Ok (mkConfig region))
    (fun _ _ b => (tasks, S b))
    (fun _ input => mkPaginator input true None)
    (fun p => firstPage p || bool_decide (is_Some (nextToken p)))
    (fun p b =>
       match script (nextToken p) with
       | Ok out =>
           (Ok out, mkPaginator (params p) false (GetLogEventsOutput.NextForwardToken out), S b)
       | Err e => (Err e, p, S b)
       end)
    (fun _ => now).

Definition clock : Time := mkTime 1700003600 250000000.

Definition one_container (name : option string) : GoResult DescribeTasksOutput.t :=
  Ok (DescribeTasksOutput.mk [mkTask [mkContainer name]]).

(** Two pages of one event each. *)
Definition hello_world (tok : option string) : GoResult GetLogEventsOutput.t :=
  match tok with
  | None =>
      Ok (GetLogEventsOutput.mk [mkEvent (Some 1700000000000) (Some "hello"%string)]
            (Some "f/1"%string))
  | Some _ =>
      Ok (GetLogEventsOutput.mk [mkEvent (Some 1700000001000) (Some "world"%string)] None)
  end.

Definition app : AWS nat Paginator := services clock (one_container (Some "app"%string)) hello_world.

(** A cluster that does not know the task, and a task without
    containers. *)
Definition no_task : AWS nat Paginator :=
  services clock (Ok (DescribeTasksOutput.mk [])) hello_world.

Definition no_container : AWS nat Paginator :=
  services clock (Ok (DescribeTasksOutput.mk [mkTask []])) hello_world.

Definition ecs : ecs_Client := mkEcsClient (mkConfig "us-west-2").
Definition logs : cloudwatchlogs_Client := mkLogsClient (mkConfig "us-west-2").

Definition full_env : gmap string string :=
  {[ "ECS_CLUSTER"%string := "prod"%string;
     "ECS_TASK_ID"%string := "0123abcd"%string;
     "LOG_GROUP_NAME"%string := "/ecs/app"%string ]}.

(** A stream that breaks after its first page, one that never ends, and
    one with an event that has no message. *)
Definition broken_stream (tok : option string) : GoResult GetLogEventsOutput.t :=
  match tok with
  | None =>
      Ok (GetLogEventsOutput.mk [mkEvent (Some 1700000000000) (Some "hello"%string)]
            (Some "f/1"%string))
  | Some _ => Err "ThrottlingException"%string
  end.

Definition broken : AWS nat Paginator :=
  services clock (one_container (Some "app"%string)) broken_stream.

Definition endless : AWS nat Paginator :=
  services clock (one_container (Some "app"%string))
    (fun _ => Ok (GetLogEventsOutput.mk [] (Some "f/same"%string))).

Definition silent_event (tok : option string) : GoResult GetLogEventsOutput.t :=
  Ok (GetLogEventsOutput.mk
        [mkEvent (Some 1700000000000) (Some "hello"%string);
         mkEvent (Some 1700000001000) None;
         mkEvent (Some 1700000002000) (Some "world"%string)]
        None).

Definition silent : AWS nat Paginator :=
  services clock (one_container (Some "app"%string)) silent_event.

(** An SDK that cannot load a configuration. *)
Definition no_configuration : AWS nat Paginator :=
  mkAWS nat Paginator
    (fun _ _ => Err "no credentials"%string)
    (fun _ _ b => (one_container (Some "app"%string), S b))
    (fun _ input => mkPaginator input true None)
    (fun p => firstPage p || bool_decide (is_Some (nextToken p)))
    (fun p b => (Err "unreachable"%string, p, S b))
    (fun _ => clock).

(** A task service that is down. *)
Definition no_ecs : AWS nat Paginator :=
  services clock (Err "ClusterNotFoundException"%string) hello_world.

End Fake.

End TaskLogs.

(* ===================================================================== *)
(** * Properties *)
(* ===================================================================== *)

(** ** The run monad *)

Lemma bind_ret_l {S A B} (a : A) (k : A -> M S B) s : bind (ret a) k s = k a s.
Proof. reflexivity. Qed.

Lemma bind_assoc {S A B C} (m : M S A) (k : A -> M S B) (h : B -> M S C) s :
  bind (bind m k) h s = bind m (fun a => bind (k a) h) s.
Proof.
  unfold bind. destruct (m s) as [[[a|code|msg] s']|]; reflexivity.
Qed.

(** Code after a call that ends the process never runs. *)
Lemma bind_os_Exit {S A B} code (k : A -> M S B) s :
  bind (os_Exit code) k s = Some (Exited code, s).
Proof. reflexivity. Qed.

Lemma length_concat_sum {A} (ls : list (list A)) :
  length (concat ls) = sum_list (map (@length A) ls).
Proof.
  induction ls as [|l ls IH]; simpl; [reflexivity|].
  rewrite length_app, IH. reflexivity.
Qed.

(** ** The stack scanner *)

Module ScanStacksFacts.

Import ScanStacks.

Section Facts.

Context {B : Type}.
Variable aws : AWS B.
Variable env : gmap string string.
Variable Time_Format : Time -> string -> string.

(** One turn of an enumeration loop whose request is answered as [H]
    says. *)
Ltac answer_with H := simpl; unfold bind, call; simpl; rewrite H; simpl.

(** *** Pagination *)

Lemma stack_requests_length tok outs :
  length (stack_requests tok outs) = length outs.
Proof.
  revert tok. induction outs as [|out outs IH]; intros tok; simpl; [reflexivity|].
  now rewrite IH.
Qed.

Lemma resource_requests_length stackID tok outs :
  length (resource_requests stackID tok outs) = length outs.
Proof.
  revert tok. induction outs as [|out outs IH]; intros tok; simpl; [reflexivity|].
  now rewrite IH.
Qed.

(** Every page request carries the same status filter. *)
Lemma stack_requests_filter tok outs :
  Forall (fun input => ListStacksInput.StackStatusFilter input = StackStatusFilter_sent)
         (stack_requests tok outs).
Proof.
  revert tok. induction outs as [|out outs IH]; intros tok; simpl; constructor; auto.
Qed.

(** Among the pages served, exactly the last one has no continuation
    token. *)
Lemma serves_stacks_tokens cfg b tok outs b' :
  serves_stacks aws cfg b tok outs b' ->
  Forall (fun out => ListStacksOutput.NextToken out <> None) (removelast outs)
  /\ ListStacksOutput.NextToken <$> last outs = Some None.
Proof.
  induction 1 as [b tok items b' H | b tok items tok' b1 outs b' H Hs [IH1 IH2]].
  - simpl. split; [constructor | reflexivity].
  - assert (outs <> []) as Hne by (destruct Hs; discriminate).
    split.
    + simpl. destruct outs as [|o outs]; [congruence|].
      constructor; [discriminate | exact IH1].
    + destruct outs as [|o outs]; [congruence|]. exact IH2.
Qed.

Lemma serves_resources_tokens cfg stackID b tok outs b' :
  serves_resources aws cfg stackID b tok outs b' ->
  Forall (fun out => ListStackResourcesOutput.NextToken out <> None) (removelast outs)
  /\ ListStackResourcesOutput.NextToken <$> last outs = Some None.
Proof.
  induction 1 as [b tok items b' H | b tok items tok' b1 outs b' H Hs [IH1 IH2]].
  - simpl. split; [constructor | reflexivity].
  - assert (outs <> []) as Hne by (destruct Hs; discriminate).
    split.
    + simpl. destruct outs as [|o outs]; [congruence|].
      constructor; [discriminate | exact IH1].
    + destruct outs as [|o outs]; [congruence|]. exact IH2.
Qed.

(** The loop of [cloudFormationListStacks], started anywhere: it sends one
    request per page served and returns what it had, followed by the pages
    in order. *)
Lemma cloudFormationListStacks_loop_serves cfg b tok outs b' :
  serves_stacks aws cfg b tok outs b' ->
  forall fuel allStacks tr,
    (length outs <= fuel)%nat ->
    cloudFormationListStacks_loop aws fuel cfg allStacks tok (mkRun b tr)
    = Some (Returned (Ok (allStacks ++ concat (map ListStacksOutput.StackSummaries outs))),
            mkRun b' (tr ++ map (CalledListStacks cfg) (stack_requests tok outs))).
Proof.
  induction 1 as [b tok items b' H | b tok items tok' b1 outs b' H Hs IH];
    intros fuel allStacks tr Hfuel;
    (destruct fuel as [|fuel]; [simpl in Hfuel; lia|]); answer_with H.
  - rewrite app_nil_r. reflexivity.
  - rewrite IH by (simpl in Hfuel; lia).
    rewrite <- !app_assoc. reflexivity.
Qed.

Lemma cloudFormationListStackResources_loop_serves cfg stackID b tok outs b' :
  serves_resources aws cfg stackID b tok outs b' ->
  forall fuel allStackResources tr,
    (length outs <= fuel)%nat ->
    cloudFormationListStackResources_loop aws fuel cfg stackID allStackResources tok
      (mkRun b tr)
    = Some (Returned
              (Ok (allStackResources
                   ++ concat (map ListStackResourcesOutput.StackResourceSummaries outs))),
            mkRun b' (tr ++ map (CalledListStackResources cfg)
                                (resource_requests stackID tok outs))).
Proof.
  induction 1 as [b tok items b' H | b tok items tok' b1 outs b' H Hs IH];
    intros fuel allStackResources tr Hfuel;
    (destruct fuel as [|fuel]; [simpl in Hfuel; lia|]); answer_with H.
  - rewrite app_nil_r. reflexivity.
  - rewrite IH by (simpl in Hfuel; lia).
    rewrite <- !app_assoc. reflexivity.
Qed.

(** A region without stacks, or a stack without resources, is an empty
    result and not an error. *)
Lemma cloudFormationListStacks_no_stacks cfg b b' tr fuel :
  ListStacks aws cfg (ListStacksInput.mk None StackStatusFilter_sent) b
    = (Ok (ListStacksOutput.mk [] None), b') ->
  cloudFormationListStacks aws (S fuel) cfg (mkRun b tr)
  = Some (Returned (Ok []),
          mkRun b' (tr ++ [CalledListStacks cfg
                             (ListStacksInput.mk None StackStatusFilter_sent)])).
Proof.
  intros H. unfold cloudFormationListStacks.
  rewrite (cloudFormationListStacks_loop_serves cfg b None
             [ListStacksOutput.mk [] None] b');
    [reflexivity | now constructor | simpl; lia].
Qed.

Lemma cloudFormationListStackResources_no_resources cfg stackID b b' tr fuel :
  ListStackResources aws cfg (ListStackResourcesInput.mk (Some stackID) None) b
    = (Ok (ListStackResourcesOutput.mk [] None), b') ->
  cloudFormationListStackResources aws (S fuel) cfg stackID (mkRun b tr)
  = Some (Returned (Ok []),
          mkRun b' (tr ++ [CalledListStackResources cfg
                             (ListStackResourcesInput.mk (Some stackID) None)])).
Proof.
  intros H. unfold cloudFormationListStackResources.
  rewrite (cloudFormationListStackResources_loop_serves cfg stackID b None
             [ListStackResourcesOutput.mk [] None] b');
    [reflexivity | now constructor | simpl; lia].
Qed.

(** C3. Both paginated enumerations return the in-order concatenation of
    the pages the backend serves: when the backend serves the pages [souts]
    to the stack listing and [routs] to the resource listing of a stack
    (each page but the last with a continuation token, the last with none),
    then, given one unit of fuel per page, [cloudFormationListStacks] and
    [cloudFormationListStackResources] return, without error, the items of
    those pages in order; the length of the result is the sum of the page
    sizes (so pages without items give the empty sequence); and the
    requests sent are exactly one per page, the first without a token and
    each next one with the token of the page before, so the loop stops at
    the first page that has no continuation token. *)
Theorem paginated_enumerations_concatenate_pages
    (cfg : Config) (stackID : string) (b bs br : B) (tr : list Event) (fuel : nat)
    (souts : list ListStacksOutput.t) (routs : list ListStackResourcesOutput.t) :
  serves_stacks aws cfg b None souts bs ->
  serves_resources aws cfg stackID b None routs br ->
  (length souts <= fuel)%nat ->
  (length routs <= fuel)%nat ->
  let stacks := concat (map ListStacksOutput.StackSummaries souts) in
  let resources := concat (map ListStackResourcesOutput.StackResourceSummaries routs) in
  (cloudFormationListStacks aws fuel cfg (mkRun b tr)
   = Some (Returned (Ok stacks),
           mkRun bs (tr ++ map (CalledListStacks cfg) (stack_requests None souts)))
   /\ length stacks
      = sum_list (map (fun out => length (ListStacksOutput.StackSummaries out)) souts)
   /\ length (stack_requests None souts) = length souts
   /\ Forall (fun out => ListStacksOutput.NextToken out <> None) (removelast souts)
   /\ ListStacksOutput.NextToken <$> last souts = Some None)
  /\
  (cloudFormationListStackResources aws fuel cfg stackID (mkRun b tr)
   = Some (Returned (Ok resources),
           mkRun br (tr ++ map (CalledListStackResources cfg)
                               (resource_requests stackID None routs)))
   /\ length resources
      = sum_list (map (fun out =>
                         length (ListStackResourcesOutput.StackResourceSummaries out)) routs)
   /\ length (resource_requests stackID None routs) = length routs
   /\ Forall (fun out => ListStackResourcesOutput.NextToken out <> None) (removelast routs)
   /\ ListStackResourcesOutput.NextToken <$> last routs = Some None).
Proof.
  intros Hs Hr Hfs Hfr stacks resources. split.
  - split; [|split; [|split]].
    + unfold cloudFormationListStacks.
      now rewrite (cloudFormationListStacks_loop_serves cfg b None souts bs).
    + subst stacks. rewrite length_concat_sum, map_map. reflexivity.
    + apply stack_requests_length.
    + eapply serves_stacks_tokens; eassumption.
  - split; [|split; [|split]].
    + unfold cloudFormationListStackResources.
      now rewrite (cloudFormationListStackResources_loop_serves cfg stackID b None routs br).
    + subst resources. rewrite length_concat_sum, map_map. reflexivity.
    + apply resource_requests_length.
    + eapply serves_resources_tokens; eassumption.
Qed.

(** *** The formatters *)

(** C6. [NilSafeString] and [NilSafeTime] render a nil input as the
    placeholder [<nil>], whatever the layout asked for, and [NilSafeString]
    returns a non-nil string as it is. *)
Theorem NilSafe_placeholder_and_identity (fmt s : string) :
  NilSafeString None = "<nil>"%string
  /\ NilSafeTime Time_Format None fmt = "<nil>"%string
  /\ NilSafeString (Some s) = s.
Proof. repeat split. Qed.

(** C10. A non-nil time is rendered by [Time.Format]: with the RFC3339
    layout when the layout argument is the empty string, and with the
    layout argument itself when that is not empty. *)
Theorem NilSafeTime_layout (t : Time) (f : string) :
  NilSafeTime Time_Format (Some t) "" = Time_Format t RFC3339
  /\ (f <> ""%string -> NilSafeTime Time_Format (Some t) f = Time_Format t f).
Proof.
  split; [reflexivity|].
  intros Hf. unfold NilSafeTime.
  destruct (String.eqb_spec f ""); [contradiction | reflexivity].
Qed.

(** *** What a failed listing does *)

(** A failed request ends the process inside the enumeration: the error is
    logged by [log.Fatalf], which exits with status 1. *)
Lemma cloudFormationListStackResources_failure_exits cfg stackID b b' err tr fuel :
  ListStackResources aws cfg (ListStackResourcesInput.mk (Some stackID) None) b
    = (Err err, b') ->
  cloudFormationListStackResources aws (S fuel) cfg stackID (mkRun b tr)
  = Some (Exited 1,
          mkRun b' ((tr ++ [CalledListStackResources cfg
                              (ListStackResourcesInput.mk (Some stackID) None)])
                    ++ [Logged ("Unable to ListStacks: " +:+ err)])).
Proof.
  intros H. unfold cloudFormationListStackResources. answer_with H. reflexivity.
Qed.

Lemma cloudFormationListStacks_failure_exits cfg b b' err tr fuel :
  ListStacks aws cfg (ListStacksInput.mk None StackStatusFilter_sent) b = (Err err, b') ->
  cloudFormationListStacks aws (S fuel) cfg (mkRun b tr)
  = Some (Exited 1,
          mkRun b' ((tr ++ [CalledListStacks cfg
                              (ListStacksInput.mk None StackStatusFilter_sent)])
                    ++ [Logged ("Unable to ListStacks: " +:+ err)])).
Proof.
  intros H. unfold cloudFormationListStacks. answer_with H. reflexivity.
Qed.

(** So neither enumeration ever hands an error back to its caller: the
    [return nil, fmt.Errorf(...)] after [log.Fatalf] is never reached. *)
Lemma cloudFormationListStackResources_loop_returns_no_error fuel :
  forall cfg stackID acc tok run e run',
    cloudFormationListStackResources_loop aws fuel cfg stackID acc tok run
    <> Some (Returned (Err e), run').
Proof.
  induction fuel as [|fuel IH]; intros cfg stackID acc tok run e run'; simpl.
  - discriminate.
  - unfold bind, call. simpl.
    destruct (ListStackResources aws cfg _ (backend run)) as [[out|err] b1]; simpl.
    + destruct (ListStackResourcesOutput.NextToken out); [apply IH | discriminate].
    + discriminate.
Qed.

Lemma cloudFormationListStacks_loop_returns_no_error fuel :
  forall cfg acc tok run e run',
    cloudFormationListStacks_loop aws fuel cfg acc tok run <> Some (Returned (Err e), run').
Proof.
  induction fuel as [|fuel IH]; intros cfg acc tok run e run'; simpl.
  - discriminate.
  - unfold bind, call. simpl.
    destruct (ListStacks aws cfg _ (backend run)) as [[out|err] b1]; simpl.
    + destruct (ListStacksOutput.NextToken out); [apply IH | discriminate].
    + discriminate.
Qed.

(** *** Which region is listed *)

(** Whatever happens, the requests [cloudFormationListStacks] sends go
    through the configuration it was given. *)
Lemma cloudFormationListStacks_loop_calls fuel :
  forall cfg acc tok (run : Run B) o run',
    cloudFormationListStacks_loop aws fuel cfg acc tok run = Some (o, run') ->
    exists ext,
      trace run' = trace run ++ ext
      /\ Forall (fun c => fst c = cfg) (stack_calls ext).
Proof.
  induction fuel as [|fuel IH]; intros cfg acc tok run o run'; simpl.
  - discriminate.
  - unfold bind, call. simpl.
    destruct (ListStacks aws cfg _ (backend run)) as [[out|err] b1]; simpl.
    + destruct (ListStacksOutput.NextToken out).
      * intros H. apply IH in H as (ext & Ht & Hall). simpl in Ht.
        eexists (_ :: ext). rewrite Ht, <- app_assoc. split; [reflexivity|].
        simpl. constructor; [reflexivity | exact Hall].
      * intros [= <- <-]. simpl. eexists [_]. split; [reflexivity|].
        simpl. constructor; [reflexivity | constructor].
    + unfold log_Fatalf, bind, log_Printf, emit, os_Exit. simpl.
      intros [= <- <-]. simpl. eexists [_; _]. rewrite <- app_assoc.
      split; [reflexivity|]. simpl. constructor; [reflexivity | constructor].
Qed.

(** The name of the region being iterated goes into a log line and
    nowhere else: the rest of the iteration is the same for every name. *)
Lemma main_region_uses_name_for_log_only fuel verbose cfg :
  exists rest : M (Run B) unit,
    forall regionName run,
      main_region aws Time_Format fuel verbose cfg regionName run
      = bind (log_Printf ("- Region: " +:+ regionName)) (fun _ => rest) run.
Proof. eexists. intros regionName run. reflexivity. Qed.

(** *** The status filter *)

(** The statuses asked for are all but two. *)
Lemma StackStatusFilter_sent_spec (st : StackStatus) :
  In st StackStatusFilter_sent
  <-> st <> StackStatusDeleteComplete /\ st <> StackStatusUpdateCompleteCleanupInProgress.
Proof.
  split.
  - intros Hin. split; intros ->; simpl in Hin; intuition discriminate.
  - intros [H1 H2]. destruct st; simpl; tauto.
Qed.

(** With a backend that applies the filter, every stack listed has one of
    the statuses asked for; a deleted stack is not among them. *)
Lemma listed_stacks_have_sent_status cfg b tok outs b' :
  honours_filter aws ->
  serves_stacks aws cfg b tok outs b' ->
  Forall (fun stack => In (StackStatus_ stack) StackStatusFilter_sent)
         (concat (map ListStacksOutput.StackSummaries outs)).
Proof.
  intros Hh. induction 1 as [b tok items b' H | b tok items tok' b1 outs b' H Hs IH]; simpl.
  - rewrite app_nil_r. exact (Hh _ _ _ _ _ H).
  - apply Forall_app. split; [exact (Hh _ _ _ _ _ H) | exact IH].
Qed.

Lemma listed_stacks_not_deleted cfg b tok outs b' :
  honours_filter aws ->
  serves_stacks aws cfg b tok outs b' ->
  Forall (fun stack => StackStatus_ stack <> StackStatusDeleteComplete)
         (concat (map ListStacksOutput.StackSummaries outs)).
Proof.
  intros Hh Hs.
  eapply Forall_impl; [eapply listed_stacks_have_sent_status; eassumption|].
  intros stack Hin. simpl in Hin. now apply StackStatusFilter_sent_spec in Hin.
Qed.

(** *** The report of a stack *)

(** Printing a stack summary logs ten lines and cannot fault, whichever
    of its fields are nil. *)
Lemma main_print_stack_returns stack (run : Run B) :
  exists lines,
    length lines = 10%nat
    /\ main_print_stack Time_Format true stack run
       = Some (Returned tt, mkRun (backend run) (trace run ++ map Logged lines)).
Proof.
  eexists [_; _; _; _; _; _; _; _; _; _]. split; [reflexivity|].
  unfold main_print_stack, bind, log_Println, log_Printf, emit. simpl.
  rewrite <- !app_assoc. reflexivity.
Qed.

Lemma main_print_resource_returns stackResource (run : Run B) :
  exists lines,
    length lines = 7%nat
    /\ main_print_resource Time_Format true stackResource run
       = Some (Returned tt, mkRun (backend run) (trace run ++ map Logged lines)).
Proof.
  eexists [_; _; _; _; _; _; _]. split; [reflexivity|].
  unfold main_print_resource, bind, log_Println, log_Printf, emit. simpl.
  rewrite <- !app_assoc. reflexivity.
Qed.

(** The identifier is dereferenced right after the report: a stack
    summary without one makes the run panic. *)
Lemma main_stack_without_id fuel cfg stack (run : Run B) :
  StackId stack = None ->
  exists run',
    main_stack aws Time_Format fuel true cfg stack run
    = Some (Panicked "runtime error: invalid memory address or nil pointer dereference",
            run')
    /\ In (Logged "  - Id: <nil>") (trace run').
Proof.
  intros Hid. unfold main_stack.
  destruct (main_print_stack_returns stack run) as (lines & Hlen & Hp).
  unfold bind at 1. 
  assert (nth_error lines 1 = Some ("  - Id: <nil>"%string)) as Hnth.
  { revert Hp. unfold main_print_stack, bind, log_Println, log_Printf, emit. simpl.
    rewrite <- !app_assoc. rewrite Hid. simpl. intros Hp.
    injection Hp as Hp. apply app_inv_head in Hp.
    destruct lines as [|l0 [|l1 lines]]; simpl in Hp; try discriminate.
    injection Hp as _ H1 _. simpl. now f_equal. }
  rewrite Hp. rewrite Hid. simpl. eexists. split; [reflexivity|].
  simpl. apply in_or_app. right. apply in_map. eapply nth_error_In. exact Hnth.
Qed.

End Facts.

(** The paging backend serves two pages of stacks and two pages of
    resources of the stack [A]; two units of fuel fetch either. *)
Lemma paginated_enumerations_on_paged_backend :
  cloudFormationListStacks Fake.paged 2 Fake.config (mkRun 0%nat [])
  = Some (Returned (Ok [Fake.stack (Some "A"%string) StackStatusCreateComplete;
                        Fake.stack (Some "B"%string) StackStatusUpdateComplete;
                        Fake.stack (Some "C"%string) StackStatusRollbackComplete]),
          mkRun 2%nat
            [CalledListStacks Fake.config (ListStacksInput.mk None StackStatusFilter_sent);
             CalledListStacks Fake.config
               (ListStacksInput.mk (Some "page-2"%string) StackStatusFilter_sent)])
  /\ cloudFormationListStackResources Fake.paged 2 Fake.config "A" (mkRun 0%nat [])
     = Some (Returned (Ok [Fake.resource "q1"; Fake.resource "q2"; Fake.resource "q3"]),
             mkRun 2%nat
               [CalledListStackResources Fake.config
                  (ListStackResourcesInput.mk (Some "A"%string) None);
                CalledListStackResources Fake.config
                  (ListStackResourcesInput.mk (Some "A"%string) (Some "more"%string))]).
Proof.
  pose proof (paginated_enumerations_concatenate_pages Fake.paged Fake.config "A"
                0%nat 2%nat 2%nat [] 2
                [ListStacksOutput.mk
                   [Fake.stack (Some "A"%string) StackStatusCreateComplete;
                    Fake.stack (Some "B"%string) StackStatusUpdateComplete]
                   (Some "page-2"%string);
                 ListStacksOutput.mk
                   [Fake.stack (Some "C"%string) StackStatusRollbackComplete] None]
                [ListStackResourcesOutput.mk [Fake.resource "q1"] (Some "more"%string);
                 ListStackResourcesOutput.mk [Fake.resource "q2"; Fake.resource "q3"] None])
    as H.
  destruct H as [[Hs _] [Hr _]].
  - eapply serves_stacks_more; [reflexivity|]. eapply serves_stacks_last. reflexivity.
  - eapply serves_resources_more; [reflexivity|]. eapply serves_resources_last. reflexivity.
  - simpl. lia.
  - simpl. lia.
  - split; [exact Hs | exact Hr].
Defined.

Lemma NilSafeTime_layout_kitchen :
  "3:04PM"%string <> ""%string
  /\ NilSafeTime Fake.Format (Some (mkTime 0 0)) "3:04PM"
     = Fake.Format (mkTime 0 0) "3:04PM".
Proof.
  split; [discriminate|].
  apply (proj2 (NilSafeTime_layout Fake.Format (mkTime 0 0) "3:04PM")). discriminate.
Defined.

Lemma StackStatus_Values_complete (st : StackStatus) : In st StackStatus_Values.
Proof. destruct st; simpl; tauto. Qed.

(** C1. A run over three stacks [A], [B], [C] in which listing the
    resources of [B] fails: the failure is logged by [log.Fatalf] inside
    [cloudFormationListStackResources] and the process exits with status 1;
    [main] never logs its own error line, and [C] is neither reported nor
    asked for. Likewise a run in which the stack listing fails exits with
    status 1 in the first region, before the second one is looked at. *)
Theorem failed_resource_listing_ends_the_scan :
  (exists run,
    main Fake.listing_denied ∅ Fake.Format 1 (mkRun tt []) = Some (Exited 1, run)
    /\ last (log_lines (trace run)) = Some "Unable to ListStacks: AccessDenied"%string
    /\ forallb (fun line => negb (String.prefix "Error calling" line))
               (log_lines (trace run)) = true
    /\ ("- Region: eu-west-1"%string ∉ log_lines (trace run)))
  /\
  exists run,
    main Fake.second_fails ∅ Fake.Format 1 (mkRun tt []) = Some (Exited 1, run)
    /\ exit_code (Exited 1) = 1
    /\ map snd (resource_calls (trace run))
       = [ListStackResourcesInput.mk (Some "A"%string) None;
          ListStackResourcesInput.mk (Some "B"%string) None]
    /\ last (log_lines (trace run)) = Some "Unable to ListStacks: AccessDenied"%string
    /\ forallb (fun line => negb (String.prefix "Error calling" line))
               (log_lines (trace run)) = true
    /\ ("  - Id: C"%string ∉ log_lines (trace run)).
Proof.
  split.
  - eexists. split; [vm_compute; reflexivity|].
    repeat split; try reflexivity.
    apply (bool_decide_unpack _). vm_compute. exact I.
  - eexists. split; [vm_compute; reflexivity|].
    repeat split; try reflexivity.
    apply (bool_decide_unpack _). vm_compute. exact I.
Qed.

(** C2. The status filter of the list-stacks request leaves out
    [UPDATE_COMPLETE_CLEANUP_IN_PROGRESS], a status of the service other
    than [DELETE_COMPLETE]: of a region with a created stack, a stack in
    that status and a deleted stack, a backend that applies the filter
    returns only the first. *)
Theorem status_filter_omits_update_cleanup :
  In StackStatusUpdateCompleteCleanupInProgress StackStatus_Values
  /\ StackStatusUpdateCompleteCleanupInProgress <> StackStatusDeleteComplete
  /\ ~ In StackStatusUpdateCompleteCleanupInProgress StackStatusFilter_sent
  /\ length StackStatus_Values = 23%nat
  /\ length StackStatusFilter_sent = 21%nat
  /\ exists run,
       cloudFormationListStacks Fake.three_statuses 1 Fake.config (mkRun tt [])
       = Some (Returned (Ok [Fake.stack (Some "live"%string) StackStatusCreateComplete]), run)
       /\ map (fun c => ListStacksInput.StackStatusFilter (snd c)) (stack_calls (trace run))
          = [StackStatusFilter_sent].
Proof.
  split; [apply StackStatus_Values_complete|].
  split; [discriminate|].
  split; [intros H; apply StackStatusFilter_sent_spec in H; tauto|].
  split; [reflexivity|]. split; [reflexivity|].
  eexists. split; vm_compute; reflexivity.
Qed.

(** C4. A run over the regions [us-west-2] and [eu-west-1], each with a
    stack of its own: both iterations send the list-stacks request with the
    one configuration loaded at start-up, so under [eu-west-1] the stack of
    [us-west-2] is reported again and the stack of [eu-west-1] never is. *)
Theorem every_region_lists_the_configured_region :
  exists run,
    main Fake.two_regions ∅ Fake.Format 1 (mkRun tt []) = Some (Returned tt, run)
    /\ filter (fun line => bool_decide (line = "- Region: us-west-2"%string
                                        \/ line = "- Region: eu-west-1"%string
                                        \/ line = "  - Id: west"%string
                                        \/ line = "  - Id: europe"%string))
              (log_lines (trace run))
       = ["- Region: us-west-2"%string; "  - Id: west"%string;
          "- Region: eu-west-1"%string; "  - Id: west"%string]
    /\ map (fun c => Region (fst c)) (stack_calls (trace run))
       = ["us-west-2"%string; "us-west-2"%string].
Proof.
  eexists. split; [vm_compute; reflexivity|].
  split; vm_compute; reflexivity.
Qed.

(** C5. A run in which the service returns a stack summary whose
    [StackId] is nil: the report prints the placeholder for it, and the
    dereference of the same field in the call that lists the resources
    panics. *)
Theorem stack_without_id_panics :
  exists run,
    main Fake.nameless_stack ∅ Fake.Format 1 (mkRun tt [])
    = Some (Panicked "runtime error: invalid memory address or nil pointer dereference", run)
    /\ ("  - Id: <nil>"%string ∈ log_lines (trace run))
    /\ last (log_lines (trace run)) = Some "  - Deletion Time: <nil>"%string
    /\ resource_calls (trace run) = [].
Proof.
  eexists. split; [vm_compute; reflexivity|].
  split; [apply (bool_decide_unpack _); vm_compute; exact I|].
  split; vm_compute; reflexivity.
Qed.

End ScanStacksFacts.

(** ** The task log fetcher *)

Module TaskLogsFacts.

Import TaskLogs.

Section Facts.

Context {B P : Type}.
Variable aws : AWS B P.
Variable env : gmap string string.
Variable Time_String : Time -> string.

(** *** Resolving the log stream *)

(** A first container without a name cannot be resolved: the dereference
    of its [Name] panics. *)
Lemma getTaskLogStreamName_nameless client cluster taskID (run : Run B) resp b' task rest
    container rest' :
  DescribeTasks aws client (DescribeTasksInput.mk (Some cluster) [taskID]) (backend run)
    = (Ok resp, b') ->
  DescribeTasksOutput.Tasks resp = task :: rest ->
  Containers task = container :: rest' ->
  Name container = None ->
  fst <$> getTaskLogStreamName aws client cluster taskID run
  = Some (Panicked "runtime error: invalid memory address or nil pointer dereference").
Proof.
  intros H Ht Hc Hn. unfold getTaskLogStreamName, bind. rewrite H.
  rewrite Ht. simpl. rewrite Hc. simpl. rewrite Hn. reflexivity.
Qed.


(** *** The environment *)

Lemma Getenv_unset (e : gmap string string) key : e !! key = None -> Getenv e key = ""%string.
Proof. intros H. unfold Getenv. now rewrite H. Qed.

Lemma Getenv_insert_ne (e : gmap string string) key key' v :
  key <> key' -> Getenv (<[key := v]> e) key' = Getenv e key'.
Proof. intros H. unfold Getenv. now rewrite lookup_insert_ne. Qed.

Lemma eqb_nonempty (v : string) : v <> ""%string -> String.eqb v "" = false.
Proof. intros H. now apply String.eqb_neq. Qed.

(** C8. [main] reads the environment before it does anything else. When
    [ECS_CLUSTER] is unset, or it is set and [ECS_TASK_ID] is unset, or
    those two are set and [LOG_GROUP_NAME] is unset, the process panics
    with the message that names the variable, and the run is left as it
    was: no configuration was loaded and no request was sent. When
    [AWS_REGION] is unset the run is the one of the same environment with
    [AWS_REGION] set to [us-west-2]. *)
Theorem required_environment_variables (fuel : nat) (run : Run B) :
  (env !! "ECS_CLUSTER"%string = None ->
   main aws env Time_String fuel run
   = Some (Panicked "ECS_CLUSTER environment variable is required", run))
  /\ (Getenv env "ECS_CLUSTER" <> ""%string ->
      env !! "ECS_TASK_ID"%string = None ->
      main aws env Time_String fuel run
      = Some (Panicked "ECS_TASK_ID environment variable is required", run))
  /\ (Getenv env "ECS_CLUSTER" <> ""%string ->
      Getenv env "ECS_TASK_ID" <> ""%string ->
      env !! "LOG_GROUP_NAME"%string = None ->
      main aws env Time_String fuel run
      = Some (Panicked "LOG_GROUP_NAME environment variable is required", run))
  /\ (env !! "AWS_REGION"%string = None ->
      main aws env Time_String fuel run
      = main aws (<["AWS_REGION"%string := "us-west-2"%string]> env) Time_String fuel run).
Proof.
  split; [|split; [|split]].
  - intros Hc. unfold main, bind. rewrite (Getenv_unset _ _ Hc). reflexivity.
  - intros Hc Ht. unfold main, bind.
    rewrite (eqb_nonempty _ Hc), (Getenv_unset _ _ Ht). reflexivity.
  - intros Hc Ht Hl. unfold main, bind.
    rewrite (eqb_nonempty _ Hc), (eqb_nonempty _ Ht), (Getenv_unset _ _ Hl). reflexivity.
  - intros Hr. unfold main.
    rewrite !Getenv_insert_ne by discriminate.
    rewrite (Getenv_unset _ _ Hr).
    replace (Getenv (<["AWS_REGION"%string := "us-west-2"%string]> env) "AWS_REGION")
      with "us-west-2"%string by (unfold Getenv; now rewrite lookup_insert_eq).
    reflexivity.
Qed.

(** *** Fetching the events *)

Lemma wrap64_small z : - 2 ^ 63 <= z < 2 ^ 63 -> wrap64 z = z.
Proof. intros H. unfold wrap64. rewrite Z.mod_small; lia. Qed.

(** One hour earlier is 3600 seconds earlier, for a time whose nanoseconds
    lie within a second. *)
Lemma Time_Add_minus_hour t :
  0 <= Time_nsec t < 1000000000 ->
  Time_Unix (Time_Add t (-1 * time_Hour)) = Time_Unix t - 3600.
Proof.
  intros H. unfold Time_Add, time_Hour.
  change (Z.quot (-1 * (3600 * 1000000000)) 1000000000) with (-3600).
  change (Z.rem (-1 * (3600 * 1000000000)) 1000000000) with 0.
  rewrite Z.add_0_r.
  destruct (Z.leb_spec 1000000000 (Time_nsec t)); [lia|].
  destruct (Z.ltb_spec (Time_nsec t) 0); [lia|].
  unfold Time_Unix. simpl. lia.
Qed.

Lemma print_event_complete event (run : Run B) :
  complete event ->
  print_event Time_String event run
  = Some (Returned tt,
          mkRun (backend run) (trace run ++ [Printed (event_line Time_String event)])).
Proof.
  intros [[ts Hts] [msg Hmsg]]. unfold print_event, event_line, bind.
  rewrite Hts, Hmsg. reflexivity.
Qed.

Lemma for_range_print_events events (run : Run B) :
  Forall complete events ->
  for_range events (print_event Time_String) run
  = Some (Returned tt,
          mkRun (backend run)
                (trace run ++ map (fun e => Printed (event_line Time_String e)) events)).
Proof.
  intros Hall. revert run. induction Hall as [|event events He _ IH]; intros run; simpl.
  - rewrite app_nil_r. now destruct run.
  - unfold bind. rewrite (print_event_complete _ _ He). rewrite IH. simpl.
    rewrite <- app_assoc. reflexivity.
Qed.

(** The paginator loop: one [NextPage] per page served, each followed by
    the lines of the events of that page. *)
Lemma getLogEvents_loop_serves p b pages b' :
  serves_pages aws p b pages b' ->
  Forall complete (concat (map GetLogEventsOutput.Events pages)) ->
  forall fuel tr,
    (length pages < fuel)%nat ->
    getLogEvents_loop aws Time_String fuel p (mkRun b tr)
    = Some (Returned None, mkRun b' (tr ++ page_trace Time_String pages)).
Proof.
  induction 1 as [p b Hno | p b page p' b1 pages b' Hmore Hnext Hs IH];
    intros Hall fuel tr Hfuel;
    (destruct fuel as [|fuel]; [simpl in Hfuel; lia|]); simpl.
  - rewrite Hno. rewrite app_nil_r. reflexivity.
  - simpl in Hall. apply Forall_app in Hall as [Hpage Hrest].
    rewrite Hmore. unfold bind at 1. simpl. rewrite Hnext.
    unfold bind. rewrite (for_range_print_events _ _ Hpage). simpl.
    rewrite IH by (auto; simpl in Hfuel; lia).
    rewrite <- !app_assoc. reflexivity.
Qed.

Lemma printed_page_trace pages :
  printed (page_trace Time_String pages)
  = map (event_line Time_String) (concat (map GetLogEventsOutput.Events pages)).
Proof.
  induction pages as [|page pages IH]; simpl; [reflexivity|].
  unfold printed in *. rewrite flat_map_app, IH, map_app. f_equal.
  induction (GetLogEventsOutput.Events page) as [|e es IHe]; simpl; [reflexivity|].
  now rewrite IHe.
Qed.


End Facts.


Lemma required_environment_variables_on_fakes :
  main Fake.app (delete "ECS_CLUSTER"%string Fake.full_env) Fake.String_ 3 (mkRun 0%nat [])
  = Some (Panicked "ECS_CLUSTER environment variable is required", mkRun 0%nat [])
  /\ main Fake.app (delete "ECS_TASK_ID"%string Fake.full_env) Fake.String_ 3 (mkRun 0%nat [])
     = Some (Panicked "ECS_TASK_ID environment variable is required", mkRun 0%nat [])
  /\ main Fake.app (delete "LOG_GROUP_NAME"%string Fake.full_env) Fake.String_ 3
          (mkRun 0%nat [])
     = Some (Panicked "LOG_GROUP_NAME environment variable is required", mkRun 0%nat [])
  /\ main Fake.app Fake.full_env Fake.String_ 3 (mkRun 0%nat [])
     = main Fake.app (<["AWS_REGION"%string := "us-west-2"%string]> Fake.full_env)
         Fake.String_ 3 (mkRun 0%nat []).
Proof.
  split; [|split; [|split]].
  - apply (proj1 (required_environment_variables Fake.app
                    (delete "ECS_CLUSTER"%string Fake.full_env) Fake.String_ 3
                    (mkRun 0%nat []))).
    vm_compute. reflexivity.
  - apply (proj1 (proj2 (required_environment_variables Fake.app
                           (delete "ECS_TASK_ID"%string Fake.full_env) Fake.String_ 3
                           (mkRun 0%nat []))));
      [vm_compute; discriminate | vm_compute; reflexivity].
  - apply (proj1 (proj2 (proj2 (required_environment_variables Fake.app
                                  (delete "LOG_GROUP_NAME"%string Fake.full_env)
                                  Fake.String_ 3 (mkRun 0%nat [])))));
      [vm_compute; discriminate | vm_compute; discriminate | vm_compute; reflexivity].
  - apply (proj2 (proj2 (proj2 (required_environment_variables Fake.app Fake.full_env
                                  Fake.String_ 3 (mkRun 0%nat []))))).
    vm_compute. reflexivity.
Defined.


End TaskLogsFacts.

(** ** More on the stack scanner *)

Module ScanStacksMore.

Import ScanStacks ScanStacksFacts.

Section Facts.

Context {B : Type}.
Variable aws : AWS B.
Variable env : gmap string string.
Variable Time_Format : Time -> string -> string.

Ltac answer_with H := simpl; unfold bind, call; simpl; rewrite H; simpl.

(** *** How the enumerations can end *)

Lemma cloudFormationListStacks_loop_ends fuel :
  forall cfg acc tok (run : Run B),
    cloudFormationListStacks_loop aws fuel cfg acc tok run = None
    \/ (exists l run',
          cloudFormationListStacks_loop aws fuel cfg acc tok run
          = Some (Returned (Ok l), run'))
    \/ (exists run',
          cloudFormationListStacks_loop aws fuel cfg acc tok run = Some (Exited 1, run')).
Proof.
  induction fuel as [|fuel IH]; intros cfg acc tok run; simpl; [now left|].
  unfold bind, call. simpl.
  destruct (ListStacks aws cfg _ (backend run)) as [[out|err] b1]; simpl.
  - destruct (ListStacksOutput.NextToken out); [apply IH|].
    right. left. eauto.
  - right. right. eauto.
Qed.

Lemma cloudFormationListStackResources_loop_ends fuel :
  forall cfg stackID acc tok (run : Run B),
    cloudFormationListStackResources_loop aws fuel cfg stackID acc tok run = None
    \/ (exists l run',
          cloudFormationListStackResources_loop aws fuel cfg stackID acc tok run
          = Some (Returned (Ok l), run'))
    \/ (exists run',
          cloudFormationListStackResources_loop aws fuel cfg stackID acc tok run
          = Some (Exited 1, run')).
Proof.
  induction fuel as [|fuel IH]; intros cfg stackID acc tok run; simpl; [now left|].
  unfold bind, call. simpl.
  destruct (ListStackResources aws cfg _ (backend run)) as [[out|err] b1]; simpl.
  - destruct (ListStackResourcesOutput.NextToken out); [apply IH|].
    right. left. eauto.
  - right. right. eauto.
Qed.

(** X1. Whatever the backend does, an enumeration that ends either
    returns a list with a nil error or has ended the process with status
    1: it never returns an error to its caller and never panics. *)
Theorem enumerations_return_a_list_or_exit fuel cfg stackID (run : Run B) :
  (cloudFormationListStacks aws fuel cfg run = None
   \/ (exists l run',
         cloudFormationListStacks aws fuel cfg run = Some (Returned (Ok l), run'))
   \/ (exists run', cloudFormationListStacks aws fuel cfg run = Some (Exited 1, run')))
  /\ (cloudFormationListStackResources aws fuel cfg stackID run = None
      \/ (exists l run',
            cloudFormationListStackResources aws fuel cfg stackID run
            = Some (Returned (Ok l), run'))
      \/ (exists run',
            cloudFormationListStackResources aws fuel cfg stackID run
            = Some (Exited 1, run'))).
Proof.
  split.
  - apply cloudFormationListStacks_loop_ends.
  - apply cloudFormationListStackResources_loop_ends.
Qed.

(** *** A failure after some pages *)

Lemma stack_token_after_cons tok items tok' outs :
  stack_token_after tok (ListStacksOutput.mk items (Some tok') :: outs)
  = stack_token_after (Some tok') outs.
Proof.
  unfold stack_token_after. destruct outs as [|o outs]; [reflexivity|].
  change (last (ListStacksOutput.mk items (Some tok') :: o :: outs))
    with (last (o :: outs)).
  destruct (last (o :: outs)) eqn:E; [reflexivity|].
  apply last_None in E. discriminate.
Qed.

Lemma resource_token_after_cons tok items tok' outs :
  resource_token_after tok (ListStackResourcesOutput.mk items (Some tok') :: outs)
  = resource_token_after (Some tok') outs.
Proof.
  unfold resource_token_after. destruct outs as [|o outs]; [reflexivity|].
  change (last (ListStackResourcesOutput.mk items (Some tok') :: o :: outs))
    with (last (o :: outs)).
  destruct (last (o :: outs)) eqn:E; [reflexivity|].
  apply last_None in E. discriminate.
Qed.

Lemma cloudFormationListStacks_loop_fails cfg b tok outs err b' :
  fails_stacks aws cfg b tok outs err b' ->
  forall fuel allStacks tr,
    (length outs < fuel)%nat ->
    cloudFormationListStacks_loop aws fuel cfg allStacks tok (mkRun b tr)
    = Some (Exited 1,
            mkRun b'
              (tr ++ map (CalledListStacks cfg)
                         (stack_requests tok outs
                          ++ [ListStacksInput.mk (stack_token_after tok outs)
                                StackStatusFilter_sent])
                  ++ [Logged ("Unable to ListStacks: " +:+ err)])).
Proof.
  induction 1 as [b tok err b' H | b tok items tok' b1 outs err b' H Hf IH];
    intros fuel allStacks tr Hfuel;
    (destruct fuel as [|fuel]; [simpl in Hfuel; lia|]); answer_with H.
  - unfold log_Fatalf, bind, log_Printf, emit, os_Exit. simpl.
    rewrite <- !app_assoc. reflexivity.
  - rewrite IH by (simpl in Hfuel; lia).
    rewrite stack_token_after_cons, <- !app_assoc. reflexivity.
Qed.

Lemma cloudFormationListStackResources_loop_fails cfg stackID b tok outs err b' :
  fails_resources aws cfg stackID b tok outs err b' ->
  forall fuel allStackResources tr,
    (length outs < fuel)%nat ->
    cloudFormationListStackResources_loop aws fuel cfg stackID allStackResources tok
      (mkRun b tr)
    = Some (Exited 1,
            mkRun b'
              (tr ++ map (CalledListStackResources cfg)
                         (resource_requests stackID tok outs
                          ++ [ListStackResourcesInput.mk (Some stackID)
                                (resource_token_after tok outs)])
                  ++ [Logged ("Unable to ListStacks: " +:+ err)])).
Proof.
  induction 1 as [b tok err b' H | b tok items tok' b1 outs err b' H Hf IH];
    intros fuel allStackResources tr Hfuel;
    (destruct fuel as [|fuel]; [simpl in Hfuel; lia|]); answer_with H.
  - unfold log_Fatalf, bind, log_Printf, emit, os_Exit. simpl.
    rewrite <- !app_assoc. reflexivity.
  - rewrite IH by (simpl in Hfuel; lia).
    rewrite resource_token_after_cons, <- !app_assoc. reflexivity.
Qed.

(** X2. A request that fails after any number of pages ends the process:
    both enumerations send the requests for the pages served and the one
    that fails, log [Unable to ListStacks:] with the error (the resource
    listing uses the same words) and exit with status 1; the pages already
    fetched are returned to nobody. *)
Theorem enumerations_exit_on_a_later_failure
    (cfg : Config) (stackID : string) (b bs br : B) (tr : list Event) (fuel : nat)
    (souts : list ListStacksOutput.t) (routs : list ListStackResourcesOutput.t)
    (serr rerr : error) :
  fails_stacks aws cfg b None souts serr bs ->
  fails_resources aws cfg stackID b None routs rerr br ->
  (length souts < fuel)%nat ->
  (length routs < fuel)%nat ->
  cloudFormationListStacks aws fuel cfg (mkRun b tr)
  = Some (Exited 1,
          mkRun bs
            (tr ++ map (CalledListStacks cfg)
                       (stack_requests None souts
                        ++ [ListStacksInput.mk (stack_token_after None souts)
                              StackStatusFilter_sent])
                ++ [Logged ("Unable to ListStacks: " +:+ serr)]))
  /\ cloudFormationListStackResources aws fuel cfg stackID (mkRun b tr)
     = Some (Exited 1,
             mkRun br
               (tr ++ map (CalledListStackResources cfg)
                          (resource_requests stackID None routs
                           ++ [ListStackResourcesInput.mk (Some stackID)
                                 (resource_token_after None routs)])
                   ++ [Logged ("Unable to ListStacks: " +:+ rerr)])).
Proof.
  intros Hs Hr Hfs Hfr. split.
  - unfold cloudFormationListStacks.
    now apply cloudFormationListStacks_loop_fails.
  - unfold cloudFormationListStackResources.
    now apply cloudFormationListStackResources_loop_fails.
Qed.

(** *** A backend that never stops *)

(** X3. Neither loop bounds the number of pages: against a backend whose
    every answer carries a continuation token, no amount of fuel lets
    either enumeration end. *)
Theorem enumerations_follow_tokens_forever (cfg : Config) (stackID : string) :
  endless_stacks aws cfg ->
  endless_resources aws cfg ->
  forall fuel (run : Run B),
    cloudFormationListStacks aws fuel cfg run = None
    /\ cloudFormationListStackResources aws fuel cfg stackID run = None.
Proof.
  intros Hs Hr fuel run. split.
  - unfold cloudFormationListStacks. generalize (@nil StackSummary) (@None string).
    revert run. induction fuel as [|fuel IH]; intros run acc tok; simpl; [reflexivity|].
    destruct (Hs (ListStacksInput.mk tok StackStatusFilter_sent) (backend run))
      as (items & tok' & b' & H).
    unfold bind, call. simpl. rewrite H. simpl. apply IH.
  - unfold cloudFormationListStackResources.
    generalize (@nil StackResourceSummary) (@None string).
    revert run. induction fuel as [|fuel IH]; intros run acc tok; simpl; [reflexivity|].
    destruct (Hr (ListStackResourcesInput.mk (Some stackID) tok) (backend run))
      as (items & tok' & b' & H).
    unfold bind, call. simpl. rewrite H. simpl. apply IH.
Qed.

(** *** Setting up *)

(** X4. A failure while setting up ends the run with status 1 and nothing
    is scanned: when the configuration cannot be loaded, [main] logs it and
    no request is sent; when the identity or the regions cannot be fetched,
    the helper logs its own message ([Unable to get caller identity:],
    [Unable to DescribeRegions:]) and exits, so that the message of [main]
    for that case is never logged, and the failed request is the last one
    sent. *)
Theorem main_exits_when_setup_fails fuel (b : B) (tr : list Event) cfg b1 b2 err
    account userId arn :
  (LoadDefaultConfig aws b = Err err ->
   main aws env Time_Format fuel (mkRun b tr)
   = Some (Exited 1, mkRun b (tr ++ [Logged ("Unable to load AWS configuration: " +:+ err)])))
  /\ (LoadDefaultConfig aws b = Ok cfg ->
      GetCallerIdentity aws cfg b = (Err err, b1) ->
      main aws env Time_Format fuel (mkRun b tr)
      = Some (Exited 1,
              mkRun b1 (tr ++ [CalledGetCallerIdentity cfg;
                               Logged ("Unable to get caller identity: " +:+ err)])))
  /\ (LoadDefaultConfig aws b = Ok cfg ->
      GetCallerIdentity aws cfg b
      = (Ok (GetCallerIdentityOutput.mk (Some account) (Some userId) (Some arn)), b1) ->
      DescribeRegions aws cfg (DescribeRegionsInput.mk (Some false)) b1 = (Err err, b2) ->
      main aws env Time_Format fuel (mkRun b tr)
      = Some (Exited 1,
              mkRun b2 (tr ++ [CalledGetCallerIdentity cfg;
                               Logged ("AWS Account ID: " +:+ account);
                               Logged ("AWS User ID: " +:+ userId);
                               Logged ("AWS ARN: " +:+ arn);
                               Logged "";
                               CalledDescribeRegions cfg
                                 (DescribeRegionsInput.mk (Some false));
                               Logged ("Unable to DescribeRegions: " +:+ err)]))).
Proof.
  split; [|split].
  - intros Hc. unfold main. cbv zeta. unfold bind at 1, config_LoadDefaultConfig.
    cbn [backend]. rewrite Hc. reflexivity.
  - intros Hc Hi. unfold main. cbv zeta. unfold bind at 1, config_LoadDefaultConfig.
    cbn [backend]. rewrite Hc. unfold bind at 1, getCallerIdentity, bind at 1, call.
    cbn [backend]. rewrite Hi. cbn. rewrite <- !app_assoc. reflexivity.
  - intros Hc Hi Hr. unfold main. cbv zeta. unfold bind at 1, config_LoadDefaultConfig.
    cbn [backend]. rewrite Hc. unfold bind at 1, getCallerIdentity, bind at 1, call.
    cbn [backend]. rewrite Hi.
    cbn -[getAWSRegions for_range_acc for_range String.append].
    unfold bind at 1, getAWSRegions, bind at 1, call. cbn [backend]. rewrite Hr.
    cbn. rewrite <- !app_assoc. reflexivity.
Qed.

(** X5. The banner dereferences the account, the user and the ARN of the
    identity without a guard: when the service leaves one of them out, the
    run panics after at most two banner lines, before the regions are
    asked for. *)
Theorem main_panics_on_a_partial_identity fuel (b : B) (tr : list Event) cfg b1 identity_ :
  LoadDefaultConfig aws b = Ok cfg ->
  GetCallerIdentity aws cfg b = (Ok identity_, b1) ->
  GetCallerIdentityOutput.Account identity_ = None
  \/ GetCallerIdentityOutput.UserId identity_ = None
  \/ GetCallerIdentityOutput.Arn identity_ = None ->
  exists lines,
    main aws env Time_Format fuel (mkRun b tr)
    = Some (Panicked "runtime error: invalid memory address or nil pointer dereference",
            mkRun b1 (tr ++ CalledGetCallerIdentity cfg :: map Logged lines))
    /\ (length lines <= 2)%nat.
Proof.
  intros Hc Hi Hnil. unfold main. cbv zeta. unfold bind at 1, config_LoadDefaultConfig.
  cbn [backend]. rewrite Hc. unfold bind at 1, getCallerIdentity, bind at 1, call.
  cbn [backend]. rewrite Hi. destruct identity_ as [[account|] [userId|] [arn|]];
    cbn in Hnil; cbn -[getAWSRegions for_range_acc for_range String.append].
  - destruct Hnil as [H|[H|H]]; discriminate.
  - exists [("AWS Account ID: " +:+ account)%string; ("AWS User ID: " +:+ userId)%string].
    rewrite <- !app_assoc. split; [reflexivity | simpl; lia].
  - exists [("AWS Account ID: " +:+ account)%string].
    rewrite <- !app_assoc. split; [reflexivity | simpl; lia].
  - exists [("AWS Account ID: " +:+ account)%string].
    rewrite <- !app_assoc. split; [reflexivity | simpl; lia].
  - exists []. split; [reflexivity | simpl; lia].
  - exists []. split; [reflexivity | simpl; lia].
  - exists []. split; [reflexivity | simpl; lia].
  - exists []. split; [reflexivity | simpl; lia].
Qed.

(** *** The list of regions *)

(** The loop that collects the region names ([main.go:186-194]): the names
    are appended in order, one log line each, and a region without a name
    is passed over. *)
Lemma collect_region_names regions :
  forall (allRegionNames : list string) (run : Run B),
    for_range_acc regions allRegionNames
      (fun allRegionNames region =>
         match RegionName region with
         | Some name =>
             bind (log_Printf ("Adding region '" +:+ name +:+ "'"))
                  (fun _ => ret (allRegionNames ++ [name]))
         | None => ret allRegionNames
         end) run
    = Some (Returned (allRegionNames ++ region_names regions),
            mkRun (backend run)
                  (trace run
                   ++ map (fun name => Logged ("Adding region '" +:+ name +:+ "'"))
                          (region_names regions))).
Proof.
  induction regions as [|[[name|]] regions IH]; intros acc run; simpl.
  - rewrite !app_nil_r. now destruct run.
  - unfold bind at 1. unfold bind at 1, log_Printf, emit, ret. rewrite IH. simpl.
    rewrite <- !app_assoc. reflexivity.
  - unfold bind at 1, ret. rewrite IH. reflexivity.
Qed.

(** X6. Once set up, [main] scans a list of region names that starts with
    the value of [AWS_REGION] ([us-west-2] when that is unset or empty) and
    goes on with the names of the regions the service returned, in their
    order: a region without a name is left out, and a name that occurs
    twice, or that equals the first one, is scanned as often as it
    occurs. The regions are asked for with [AllRegions] false. *)
Theorem main_scans_region_then_discovered fuel (b : B) (tr : list Event) cfg b1 b2
    account userId arn regions :
  LoadDefaultConfig aws b = Ok cfg ->
  GetCallerIdentity aws cfg b
  = (Ok (GetCallerIdentityOutput.mk (Some account) (Some userId) (Some arn)), b1) ->
  DescribeRegions aws cfg (DescribeRegionsInput.mk (Some false)) b1
  = (Ok (DescribeRegionsOutput.mk regions), b2) ->
  let region := if String.eqb (Getenv env "AWS_REGION") ""
                then "us-west-2"%string else Getenv env "AWS_REGION" in
  let names := region :: region_names regions in
  main aws env Time_Format fuel (mkRun b tr)
  = for_range names (main_region aws Time_Format fuel true cfg)
      (mkRun b2
         (tr ++ [CalledGetCallerIdentity cfg;
                 Logged ("AWS Account ID: " +:+ account);
                 Logged ("AWS User ID: " +:+ userId);
                 Logged ("AWS ARN: " +:+ arn);
                 Logged "";
                 CalledDescribeRegions cfg (DescribeRegionsInput.mk (Some false))]
             ++ map (fun name => Logged ("Adding region '" +:+ name +:+ "'"))
                    (region_names regions)
             ++ [Logged ("All detected AWS Regions: " +:+ fmt_strings names);
                 Logged "Checking each region for stacks..."])).
Proof.
  intros Hc Hi Hr region names.
  unfold main. cbv zeta. unfold bind at 1, config_LoadDefaultConfig.
  cbn [backend]. rewrite Hc. unfold bind at 1, getCallerIdentity, bind at 1, call.
  cbn [backend]. rewrite Hi.
  cbn -[getAWSRegions for_range_acc for_range String.append String.eqb].
  unfold bind at 1, getAWSRegions, bind at 1, call. cbn [backend]. rewrite Hr.
  cbn -[for_range_acc for_range String.append String.eqb].
  unfold bind at 1. rewrite collect_region_names.
  cbn -[for_range String.append String.eqb region_names].
  fold region. unfold bind, log_Printf, log_Println, emit.
  cbn -[for_range String.append String.eqb region_names].
  subst names. f_equal. f_equal. rewrite <- !app_assoc. reflexivity.
Qed.

(** *** A scan that goes well *)

Lemma main_print_stack_lines stack (run : Run B) :
  main_print_stack Time_Format true stack run
  = Some (Returned tt,
          mkRun (backend run) (trace run ++ map Logged (stack_lines Time_Format stack))).
Proof.
  unfold main_print_stack, bind, log_Println, log_Printf, emit. simpl.
  rewrite <- !app_assoc. reflexivity.
Qed.

Lemma main_print_resource_lines stackResource (run : Run B) :
  main_print_resource Time_Format true stackResource run
  = Some (Returned tt,
          mkRun (backend run)
                (trace run ++ map Logged (resource_lines Time_Format stackResource))).
Proof.
  unfold main_print_resource, bind, log_Println, log_Printf, emit. simpl.
  rewrite <- !app_assoc. reflexivity.
Qed.

Lemma main_print_resources_lines stackResources :
  forall run : Run B,
    for_range stackResources (main_print_resource Time_Format true) run
    = Some (Returned tt,
            mkRun (backend run)
                  (trace run
                   ++ map Logged (flat_map (resource_lines Time_Format) stackResources))).
Proof.
  induction stackResources as [|r rs IH]; intros run.
  - simpl. rewrite app_nil_r. now destruct run.
  - cbn [for_range flat_map]. unfold bind. rewrite main_print_resource_lines.
    rewrite IH. cbn [backend trace]. rewrite map_app, <- !app_assoc. reflexivity.
Qed.

Lemma main_stack_scan fuel cfg stack stackID (b b' : B) outs tr :
  StackId stack = Some stackID ->
  serves_resources aws cfg stackID b None outs b' ->
  (length outs <= fuel)%nat ->
  main_stack aws Time_Format fuel true cfg stack (mkRun b tr)
  = Some (Returned tt, mkRun b' (tr ++ stack_scan Time_Format cfg stackID stack outs)).
Proof.
  intros Hid Hs Hfuel. unfold main_stack.
  unfold bind at 1. rewrite main_print_stack_lines. cbn [backend trace].
  rewrite Hid. unfold bind at 1. cbn [deref ret].
  unfold bind at 1, cloudFormationListStackResources.
  rewrite (cloudFormationListStackResources_loop_serves aws cfg stackID b None outs b' Hs)
    by exact Hfuel.
  cbn [app]. rewrite main_print_resources_lines. cbn [backend trace].
  unfold stack_scan. rewrite <- !app_assoc. reflexivity.
Qed.

(** X7. The scan of a stack that has an identifier, when the backend
    serves its resources in pages: [main] logs the ten lines of the stack,
    sends one request per page under that identifier, then logs the seven
    lines of every resource, in the order of the pages, and goes on to the
    next stack; nil fields appear as [<nil>], and no resource is logged
    before the last page has been fetched. *)
Theorem main_stack_reports_then_lists fuel cfg stack stackID (b b' : B) outs tr :
  StackId stack = Some stackID ->
  serves_resources aws cfg stackID b None outs b' ->
  (length outs <= fuel)%nat ->
  main_stack aws Time_Format fuel true cfg stack (mkRun b tr)
  = Some (Returned tt,
          mkRun b'
            (tr ++ map Logged (stack_lines Time_Format stack)
                ++ map (CalledListStackResources cfg) (resource_requests stackID None outs)
                ++ map Logged
                     (flat_map (resource_lines Time_Format)
                        (concat (map ListStackResourcesOutput.StackResourceSummaries
                                     outs)))))
  /\ length (stack_lines Time_Format stack) = 10%nat
  /\ length (flat_map (resource_lines Time_Format)
               (concat (map ListStackResourcesOutput.StackResourceSummaries outs)))
     = (7 * length (concat (map ListStackResourcesOutput.StackResourceSummaries outs)))%nat.
Proof.
  intros Hid Hs Hfuel. split; [|split].
  - exact (main_stack_scan fuel cfg stack stackID b b' outs tr Hid Hs Hfuel).
  - reflexivity.
  - induction (concat (map ListStackResourcesOutput.StackResourceSummaries outs))
      as [|r rs IH]; [reflexivity|].
    cbn [flat_map]. rewrite length_app, IH. simpl. lia.
Qed.

Lemma main_stacks_scan cfg fuel stacks (b b' : B) evs :
  serves_scans aws Time_Format cfg fuel stacks b evs b' ->
  forall tr,
    for_range stacks (main_stack aws Time_Format fuel true cfg) (mkRun b tr)
    = Some (Returned tt, mkRun b' (tr ++ evs)).
Proof.
  induction 1 as [b | stack stackID rest b outs b1 evs b' Hid Hs Hfuel Hrest IH];
    intros tr.
  - simpl. now rewrite app_nil_r.
  - cbn [for_range]. unfold bind.
    rewrite (main_stack_scan fuel cfg stack stackID b b1 outs tr Hid Hs Hfuel).
    rewrite IH, <- app_assoc. reflexivity.
Qed.

(** X8. The scan of a region in which every listing succeeds and every
    stack has an identifier: after the line that names the region come the
    requests for the pages of stacks, then the scan of each stack in the
    order of the pages, then an empty line; nothing of a stack is logged
    before the whole list of stacks has been fetched. *)
Theorem main_region_lists_then_scans fuel cfg regionName (b b1 b' : B) souts evs tr :
  serves_stacks aws cfg b None souts b1 ->
  (length souts <= fuel)%nat ->
  serves_scans aws Time_Format cfg fuel
    (concat (map ListStacksOutput.StackSummaries souts)) b1 evs b' ->
  main_region aws Time_Format fuel true cfg regionName (mkRun b tr)
  = Some (Returned tt,
          mkRun b'
            (tr ++ [Logged ("- Region: " +:+ regionName)]
                ++ map (CalledListStacks cfg) (stack_requests None souts)
                ++ evs ++ [Logged ""])).
Proof.
  intros Hs Hfuel Hscans. unfold main_region.
  unfold bind at 1, log_Printf, emit. cbn [backend trace].
  unfold bind at 1, cloudFormationListStacks.
  rewrite (cloudFormationListStacks_loop_serves aws cfg b None souts b1 Hs) by exact Hfuel.
  cbn [app]. unfold bind at 1. rewrite (main_stacks_scan _ _ _ _ _ _ Hscans).
  unfold log_Println, emit. cbn [backend trace].
  rewrite <- !app_assoc. reflexivity.
Qed.

(** *** Which configuration the requests go through *)

Lemma adds_ret {A} Q (a : A) : adds (B:=B) Q (ret a).
Proof.
  intros run o run' [= <- <-]. exists []. rewrite app_nil_r. split; [reflexivity | constructor].
Qed.

Lemma adds_end {A} Q (o : Outcome A) : adds (B:=B) Q (fun run => Some (o, run)).
Proof.
  intros run o' run' [= <- <-]. exists []. rewrite app_nil_r. split; [reflexivity | constructor].
Qed.

Lemma adds_out_of_fuel {A} Q : adds (B:=B) (A:=A) Q out_of_fuel.
Proof. intros run o run'. discriminate. Qed.

Lemma adds_bind {A C} Q (m : M (Run B) A) (k : A -> M (Run B) C) :
  adds Q m -> (forall a, adds Q (k a)) -> adds Q (bind m k).
Proof.
  intros Hm Hk run o run'. unfold bind.
  destruct (m run) as [[[a|code|msg] run1]|] eqn:E; try discriminate.
  - intros H. destruct (Hm _ _ _ E) as (e1 & Ht1 & Hq1).
    destruct (Hk a _ _ _ H) as (e2 & Ht2 & Hq2).
    exists (e1 ++ e2). rewrite Ht2, Ht1, <- app_assoc. split; [reflexivity|].
    now apply Forall_app.
  - intros [= <- <-]. destruct (Hm _ _ _ E) as (e1 & Ht1 & Hq1). eauto.
  - intros [= <- <-]. destruct (Hm _ _ _ E) as (e1 & Ht1 & Hq1). eauto.
Qed.

Lemma adds_emit Q e : Q e -> adds (B:=B) Q (emit e).
Proof.
  intros He run o run' [= <- <-]. exists [e]. split; [reflexivity|]. now constructor.
Qed.

Lemma adds_call {A} Q e (op : B -> GoResult A * B) : Q e -> adds Q (call e op).
Proof.
  intros He run o run'. unfold call. destruct (op (backend run)) as [res b1].
  intros [= <- <-]. exists [e]. split; [reflexivity|]. now constructor.
Qed.

Lemma adds_for_range {A} Q (l : list A) (body : A -> M (Run B) unit) :
  (forall x, adds Q (body x)) -> adds Q (for_range l body).
Proof.
  intros Hb. induction l as [|x l IH]; simpl.
  - apply adds_ret.
  - apply adds_bind; [apply Hb | intros _; exact IH].
Qed.

Lemma adds_for_range_acc {A V} Q (l : list A) (body : V -> A -> M (Run B) V) :
  (forall v x, adds Q (body v x)) -> forall v, adds Q (for_range_acc l v body).
Proof.
  intros Hb. induction l as [|x l IH]; intros v; simpl.
  - apply adds_ret.
  - apply adds_bind; [apply Hb | intros v'; apply IH].
Qed.

(** The pieces of the scanner, put together step by step. *)
Ltac adds_steps :=
  repeat first
    [ apply adds_ret
    | apply adds_end
    | apply adds_out_of_fuel
    | apply adds_emit; exact I
    | apply adds_call; reflexivity
    | apply adds_bind; [|intros ?]
    | apply adds_for_range; intros ?
    | apply adds_for_range_acc; intros ? ?
    | match goal with
      | |- adds _ (match ?x with _ => _ end) => destruct x
      end ].

Lemma adds_cloudFormationListStacks_loop cfg fuel :
  forall acc tok, adds (through cfg) (cloudFormationListStacks_loop aws fuel cfg acc tok).
Proof.
  induction fuel as [|fuel IH]; intros acc tok; simpl.
  - apply adds_out_of_fuel.
  - apply adds_bind; [apply adds_call; reflexivity|]. intros [out|err].
    + destruct (ListStacksOutput.NextToken out); [apply IH | apply adds_ret].
    + unfold log_Fatalf, log_Printf, os_Exit. adds_steps.
Qed.

Lemma adds_cloudFormationListStackResources_loop cfg stackID fuel :
  forall acc tok,
    adds (through cfg) (cloudFormationListStackResources_loop aws fuel cfg stackID acc tok).
Proof.
  induction fuel as [|fuel IH]; intros acc tok; simpl.
  - apply adds_out_of_fuel.
  - apply adds_bind; [apply adds_call; reflexivity|]. intros [out|err].
    + destruct (ListStackResourcesOutput.NextToken out); [apply IH | apply adds_ret].
    + unfold log_Fatalf, log_Printf, os_Exit. adds_steps.
Qed.

Lemma adds_main_region cfg fuel verbose regionName :
  adds (through cfg) (main_region aws Time_Format fuel verbose cfg regionName).
Proof.
  unfold main_region, log_Printf, log_Println.
  apply adds_bind; [apply adds_emit; exact I|]. intros _.
  apply adds_bind; [apply adds_cloudFormationListStacks_loop|]. intros [stacks|serr].
  - apply adds_bind; [|intros _; apply adds_emit; exact I].
    apply adds_for_range. intros stack. unfold main_stack.
    apply adds_bind.
    { unfold main_print_stack, log_Printf, log_Println. destruct verbose; adds_steps. }
    intros _. apply adds_bind; [unfold deref, panic; adds_steps|]. intros stackID.
    apply adds_bind; [apply adds_cloudFormationListStackResources_loop|].
    intros [stackResources|srerr].
    + apply adds_for_range. intros stackResource.
      unfold main_print_resource, log_Printf, log_Println. destruct verbose; adds_steps.
    + unfold log_Printf. adds_steps.
  - apply adds_emit. exact I.
Qed.

(** X9. However a run of [main] ends, every request it has sent (for the
    identity, for the regions, for stacks and for resources) went through
    the one configuration that was loaded at the start: no request is ever
    sent to another region, whatever the names of the regions scanned. *)
Theorem main_sends_every_request_through_the_loaded_configuration
    fuel (run : Run B) cfg o run' :
  LoadDefaultConfig aws (backend run) = Ok cfg ->
  main aws env Time_Format fuel run = Some (o, run') ->
  exists ext,
    trace run' = trace run ++ ext
    /\ Forall (through cfg) ext.
Proof.
  intros Hc. revert o run'. unfold main. cbv zeta.
  unfold bind at 1, config_LoadDefaultConfig. rewrite Hc.
  match goal with
  | |- forall o run', ?m run = _ -> _ =>
      enough (adds (through cfg) m) as Ha by (intros o run'; apply Ha)
  end.
  unfold getCallerIdentity, getAWSRegions, log_Fatalf, log_Printf, log_Println, os_Exit,
    deref, panic.
  apply adds_bind.
  { apply adds_bind; [apply adds_call; reflexivity|]. intros [output|err]; adds_steps. }
  intros [identity_|ierr]; [|adds_steps].
  apply adds_bind; [adds_steps|]. intros _.
  apply adds_bind.
  { apply adds_bind; [apply adds_call; reflexivity|]. intros [output|err]; adds_steps. }
  intros [regions|rerr]; [|adds_steps].
  apply adds_bind.
  { apply adds_for_range_acc. intros v x. adds_steps. }
  intros names. apply adds_bind; [apply adds_emit; exact I|]. intros _.
  apply adds_bind; [apply adds_emit; exact I|]. intros _.
  apply adds_for_range. intros regionName. apply adds_main_region.
Qed.

End Facts.

Lemma enumerations_exit_on_the_second_page :
  cloudFormationListStacks Fake.breaks_on_second_page 2 Fake.config (mkRun 0%nat [])
  = Some (Exited 1,
          mkRun 2%nat
            [CalledListStacks Fake.config (ListStacksInput.mk None StackStatusFilter_sent);
             CalledListStacks Fake.config
               (ListStacksInput.mk (Some "page-2"%string) StackStatusFilter_sent);
             Logged "Unable to ListStacks: Throttling"])
  /\ cloudFormationListStackResources Fake.breaks_on_second_page 2 Fake.config "A"
       (mkRun 0%nat [])
     = Some (Exited 1,
             mkRun 2%nat
               [CalledListStackResources Fake.config
                  (ListStackResourcesInput.mk (Some "A"%string) None);
                CalledListStackResources Fake.config
                  (ListStackResourcesInput.mk (Some "A"%string) (Some "more"%string));
                Logged "Unable to ListStacks: Throttling"]).
Proof.
  apply (enumerations_exit_on_a_later_failure Fake.breaks_on_second_page Fake.config "A"
           0%nat 2%nat 2%nat [] 2
           [ListStacksOutput.mk [Fake.stack (Some "A"%string) StackStatusCreateComplete]
              (Some "page-2"%string)]
           [ListStackResourcesOutput.mk [Fake.resource "q1"] (Some "more"%string)]
           "Throttling" "Throttling").
  - eapply fails_stacks_later; [reflexivity|]. apply fails_stacks_now. reflexivity.
  - eapply fails_resources_later; [reflexivity|]. apply fails_resources_now. reflexivity.
  - simpl. lia.
  - simpl. lia.
Defined.

Lemma enumerations_never_end_on_endless :
  cloudFormationListStacks Fake.endless 1000 Fake.config (mkRun 0%nat []) = None
  /\ cloudFormationListStackResources Fake.endless 1000 Fake.config "A" (mkRun 0%nat [])
     = None.
Proof.
  apply (enumerations_follow_tokens_forever Fake.endless Fake.config "A").
  - intros input b. eexists _, _, _. reflexivity.
  - intros input b. eexists _, _, _. reflexivity.
Defined.

Lemma main_exits_on_failing_setups :
  main Fake.no_configuration ∅ Fake.Format 1 (mkRun tt [])
  = Some (Exited 1, mkRun tt [Logged "Unable to load AWS configuration: no credentials"])
  /\ main Fake.no_identity ∅ Fake.Format 1 (mkRun tt [])
     = Some (Exited 1,
             mkRun tt [CalledGetCallerIdentity Fake.config;
                       Logged "Unable to get caller identity: ExpiredToken"])
  /\ main Fake.no_regions ∅ Fake.Format 1 (mkRun tt [])
     = Some (Exited 1,
             mkRun tt [CalledGetCallerIdentity Fake.config;
                       Logged "AWS Account ID: 123456789012";
                       Logged "AWS User ID: AIDAEXAMPLE";
                       Logged "AWS ARN: arn:aws:iam::123456789012:user/dev";
                       Logged "";
                       CalledDescribeRegions Fake.config
                         (DescribeRegionsInput.mk (Some false));
                       Logged "Unable to DescribeRegions: UnauthorizedOperation"]).
Proof.
  split; [|split].
  - apply (proj1 (main_exits_when_setup_fails Fake.no_configuration ∅ Fake.Format 1 tt []
                    Fake.config tt tt "no credentials" "" "" "")).
    reflexivity.
  - apply (proj1 (proj2 (main_exits_when_setup_fails Fake.no_identity ∅ Fake.Format 1 tt []
                           Fake.config tt tt "ExpiredToken" "" "" ""))); reflexivity.
  - apply (proj2 (proj2 (main_exits_when_setup_fails Fake.no_regions ∅ Fake.Format 1 tt []
                           Fake.config tt tt "UnauthorizedOperation" "123456789012"
                           "AIDAEXAMPLE" "arn:aws:iam::123456789012:user/dev")));
      reflexivity.
Defined.

Lemma main_panics_without_an_arn :
  exists lines,
    main Fake.no_arn ∅ Fake.Format 1 (mkRun tt [])
    = Some (Panicked "runtime error: invalid memory address or nil pointer dereference",
            mkRun tt ([] ++ CalledGetCallerIdentity Fake.config :: map Logged lines))
    /\ (length lines <= 2)%nat.
Proof.
  apply (main_panics_on_a_partial_identity Fake.no_arn ∅ Fake.Format 1 tt [] Fake.config tt
           (GetCallerIdentityOutput.mk (Some "123456789012"%string)
              (Some "AIDAEXAMPLE"%string) None)).
  - reflexivity.
  - reflexivity.
  - right. right. reflexivity.
Defined.

Lemma main_scans_the_configured_region_twice :
  (if String.eqb (Getenv ∅ "AWS_REGION") "" then "us-west-2"%string
   else Getenv ∅ "AWS_REGION") :: region_names Fake.three_regions
  = ["us-west-2"%string; "eu-west-1"%string; "us-west-2"%string]
  /\ main Fake.odd_regions ∅ Fake.Format 1 (mkRun tt [])
     = for_range
         ((if String.eqb (Getenv ∅ "AWS_REGION") "" then "us-west-2"%string
           else Getenv ∅ "AWS_REGION") :: region_names Fake.three_regions)
         (main_region Fake.odd_regions Fake.Format 1 true Fake.config)
         (mkRun tt
            ([] ++ [CalledGetCallerIdentity Fake.config;
                    Logged ("AWS Account ID: " +:+ "123456789012");
                    Logged ("AWS User ID: " +:+ "AIDAEXAMPLE");
                    Logged ("AWS ARN: " +:+ "arn:aws:iam::123456789012:user/dev");
                    Logged "";
                    CalledDescribeRegions Fake.config (DescribeRegionsInput.mk (Some false))]
                ++ map (fun name => Logged ("Adding region '" +:+ name +:+ "'"))
                       (region_names Fake.three_regions)
                ++ [Logged ("All detected AWS Regions: "
                            +:+ fmt_strings
                                  ((if String.eqb (Getenv ∅ "AWS_REGION") ""
                                    then "us-west-2"%string
                                    else Getenv ∅ "AWS_REGION")
                                   :: region_names Fake.three_regions));
                    Logged "Checking each region for stacks..."])).
Proof.
  split; [vm_compute; reflexivity|].
  exact (main_scans_region_then_discovered Fake.odd_regions ∅ Fake.Format 1 tt []
           Fake.config tt tt "123456789012" "AIDAEXAMPLE"
           "arn:aws:iam::123456789012:user/dev" Fake.three_regions
           eq_refl eq_refl eq_refl).
Defined.

Lemma main_stack_on_paged_backend :
  main_stack Fake.paged Fake.Format 2 true Fake.config
    (Fake.stack (Some "A"%string) StackStatusCreateComplete) (mkRun 0%nat [])
  = Some (Returned tt,
          mkRun 2%nat
            ([] ++ stack_scan Fake.Format Fake.config "A"
                     (Fake.stack (Some "A"%string) StackStatusCreateComplete)
                     [ListStackResourcesOutput.mk [Fake.resource "q1"] (Some "more"%string);
                      ListStackResourcesOutput.mk [Fake.resource "q2"; Fake.resource "q3"]
                        None])).
Proof.
  apply (proj1 (main_stack_reports_then_lists Fake.paged Fake.Format 2 Fake.config
                  (Fake.stack (Some "A"%string) StackStatusCreateComplete) "A"
                  0%nat 2%nat
                  [ListStackResourcesOutput.mk [Fake.resource "q1"] (Some "more"%string);
                   ListStackResourcesOutput.mk [Fake.resource "q2"; Fake.resource "q3"]
                     None]
                  [] eq_refl
                  ltac:(eapply serves_resources_more;
                        [reflexivity | apply serves_resources_last; reflexivity])
                  ltac:(simpl; lia))).
Defined.

Lemma main_region_on_paged_backend :
  main_region Fake.paged Fake.Format 2 true Fake.config "us-west-2" (mkRun 0%nat [])
  = Some (Returned tt,
          mkRun 6%nat
            ([] ++ [Logged "- Region: us-west-2"]
                ++ map (CalledListStacks Fake.config)
                     [ListStacksInput.mk None StackStatusFilter_sent;
                      ListStacksInput.mk (Some "page-2"%string) StackStatusFilter_sent]
                ++ (stack_scan Fake.Format Fake.config "A"
                      (Fake.stack (Some "A"%string) StackStatusCreateComplete)
                      [ListStackResourcesOutput.mk [Fake.resource "q1"]
                         (Some "more"%string);
                       ListStackResourcesOutput.mk
                         [Fake.resource "q2"; Fake.resource "q3"] None]
                    ++ stack_scan Fake.Format Fake.config "B"
                         (Fake.stack (Some "B"%string) StackStatusUpdateComplete)
                         [ListStackResourcesOutput.mk [] None]
                    ++ stack_scan Fake.Format Fake.config "C"
                         (Fake.stack (Some "C"%string) StackStatusRollbackComplete)
                         [ListStackResourcesOutput.mk [] None]
                    ++ [])
                ++ [Logged ""])).
Proof.
  apply (main_region_lists_then_scans Fake.paged Fake.Format 2 Fake.config "us-west-2"
           0%nat 2%nat 6%nat
           [ListStacksOutput.mk
              [Fake.stack (Some "A"%string) StackStatusCreateComplete;
               Fake.stack (Some "B"%string) StackStatusUpdateComplete]
              (Some "page-2"%string);
            ListStacksOutput.mk
              [Fake.stack (Some "C"%string) StackStatusRollbackComplete] None]).
  - eapply serves_stacks_more; [reflexivity|]. apply serves_stacks_last. reflexivity.
  - simpl. lia.
  - cbn [concat map ListStacksOutput.StackSummaries app].
    eapply serves_scans_cons with (stackID := "A"%string) (b1 := 4%nat);
      [reflexivity | | simpl; lia |].
    { eapply serves_resources_more; [reflexivity|]. apply serves_resources_last.
      reflexivity. }
    eapply serves_scans_cons with (stackID := "B"%string) (b1 := 5%nat);
      [reflexivity | | simpl; lia |].
    { apply serves_resources_last. reflexivity. }
    eapply serves_scans_cons with (stackID := "C"%string) (b1 := 6%nat);
      [reflexivity | | simpl; lia |].
    { apply serves_resources_last. reflexivity. }
    apply serves_scans_nil.
Defined.

Lemma main_on_two_regions_uses_one_configuration :
  exists o run',
    main Fake.two_regions ∅ Fake.Format 1 (mkRun tt []) = Some (o, run')
    /\ exists ext, trace run' = [] ++ ext /\ Forall (through Fake.config) ext.
Proof.
  eexists _, _. split; [vm_compute; reflexivity|].
  eapply (main_sends_every_request_through_the_loaded_configuration Fake.two_regions ∅
            Fake.Format 1 (mkRun tt []) Fake.config).
  - reflexivity.
  - vm_compute. reflexivity.
Defined.

End ScanStacksMore.

(** ** More on the task log fetcher *)

Module TaskLogsMore.

Import TaskLogs TaskLogsFacts.

Section Facts.

Context {B P : Type}.
Variable aws : AWS B P.
Variable env : gmap string string.
Variable Time_String : Time -> string.

(** *** When a page cannot be fetched or printed *)

(** X10. When a page cannot be fetched, the loop of [getLogEvents] stops
    and returns the error with [failed to get log events:] in front of it;
    the events of the pages fetched before are already on standard output,
    one line each, and stay there. *)
Theorem getLogEvents_loop_returns_the_error_after_printing
    (p : P) (b b' : B) (pages : list GetLogEventsOutput.t) (err : error)
    (tr : list Event) (fuel : nat) :
  fails_pages aws p b pages err b' ->
  Forall complete (concat (map GetLogEventsOutput.Events pages)) ->
  (length pages < fuel)%nat ->
  getLogEvents_loop aws Time_String fuel p (mkRun b tr)
  = Some (Returned (Some ("failed to get log events: " +:+ err)),
          mkRun b' (tr ++ page_trace Time_String pages ++ [CalledNextPage]))
  /\ printed (page_trace Time_String pages ++ [CalledNextPage])
     = map (event_line Time_String) (concat (map GetLogEventsOutput.Events pages)).
Proof.
  intros Hf Hall Hfuel. split.
  - revert tr fuel Hall Hfuel.
    induction Hf as [p b err p' b' Hmore Hnext
                    | p b page p' b1 pages err b' Hmore Hnext Hf IH];
      intros tr fuel Hall Hfuel;
      (destruct fuel as [|fuel]; [simpl in Hfuel; lia|]); simpl.
    + rewrite Hmore. unfold bind. simpl. rewrite Hnext. reflexivity.
    + simpl in Hall. apply Forall_app in Hall as [Hpage Hrest].
      rewrite Hmore. unfold bind at 1. simpl. rewrite Hnext.
      unfold bind. rewrite (for_range_print_events Time_String _ _ Hpage). simpl.
      rewrite IH by (auto; simpl in Hfuel; lia).
      rewrite <- !app_assoc. reflexivity.
  - unfold printed. rewrite flat_map_app. simpl. rewrite app_nil_r.
    apply printed_page_trace.
Qed.

Lemma for_range_print_until before event after (run : Run B) :
  Forall complete before ->
  ~ complete event ->
  for_range (before ++ event :: after) (print_event Time_String) run
  = Some (Panicked "runtime error: invalid memory address or nil pointer dereference",
          mkRun (backend run)
                (trace run ++ map (fun e => Printed (event_line Time_String e)) before)).
Proof.
  intros Hall Hbad. revert run.
  induction Hall as [|e before He _ IH]; intros run; simpl.
  - rewrite app_nil_r. unfold bind, print_event, bind.
    destruct event as [[ts|] [msg|]]; simpl.
    + exfalso. apply Hbad. split; eexists; reflexivity.
    + now destruct run.
    + now destruct run.
    + now destruct run.
  - unfold bind. rewrite (print_event_complete Time_String _ _ He). rewrite IH. simpl.
    rewrite <- app_assoc. reflexivity.
Qed.

(** X11. An event without a timestamp or without a message makes the run
    panic at the nil dereference: the events before it on its page have
    been printed, the event itself and everything after it are not, and
    no further page is asked for. *)
Theorem getLogEvents_loop_panics_on_an_incomplete_event
    (p p' : P) (b b1 : B) (page : GetLogEventsOutput.t)
    (before after : list OutputLogEvent) (event : OutputLogEvent)
    (tr : list Event) (fuel : nat) :
  HasMorePages aws p = true ->
  NextPage aws p b = (Ok page, p', b1) ->
  GetLogEventsOutput.Events page = before ++ event :: after ->
  Forall complete before ->
  Timestamp event = None \/ Message event = None ->
  getLogEvents_loop aws Time_String (S fuel) p (mkRun b tr)
  = Some (Panicked "runtime error: invalid memory address or nil pointer dereference",
          mkRun b1 (tr ++ CalledNextPage
                       :: map (fun e => Printed (event_line Time_String e)) before)).
Proof.
  intros Hmore Hnext Hev Hall Hnil. simpl.
  rewrite Hmore. unfold bind at 1. simpl. rewrite Hnext.
  unfold bind. rewrite Hev.
  rewrite (for_range_print_until before event after _ Hall).
  - simpl. rewrite <- app_assoc. reflexivity.
  - intros [[ts Hts] [msg Hmsg]]. destruct Hnil; congruence.
Qed.

(** X12. The loop has no bound of its own: with a paginator that keeps
    reporting more pages and keeps handing one out, no amount of fuel lets
    it end. *)
Theorem getLogEvents_loop_runs_as_long_as_pages_come (Inv : P -> Prop) :
  endless_pages aws Inv ->
  forall fuel (p : P) (run : Run B),
    Inv p ->
    getLogEvents_loop aws Time_String fuel p run = None.
Proof.
  intros Hend fuel. induction fuel as [|fuel IH]; intros p run Hp; simpl.
  - reflexivity.
  - destruct (Hend p Hp) as [Hmore Hnext]. rewrite Hmore.
    destruct (Hnext (backend run)) as (page & p' & b' & Hn & Hp' & Hall).
    unfold bind at 1. rewrite Hn.
    unfold bind. rewrite (for_range_print_events Time_String _ _ Hall). now apply IH.
Qed.

(** *** The environment *)

Lemma Getenv_empty_is_unset (e : gmap string string) key k :
  Getenv (<[key := ""%string]> e) k = Getenv (delete key e) k.
Proof.
  unfold Getenv. destruct (decide (key = k)) as [->|Hne].
  - now rewrite lookup_insert_eq, lookup_delete_eq.
  - now rewrite lookup_insert_ne, lookup_delete_ne.
Qed.

(** X13. A variable that is set to the empty string counts as unset: the
    run of [main] is the same as without the variable, so an empty
    [ECS_CLUSTER], [ECS_TASK_ID] or [LOG_GROUP_NAME] aborts the run, and an
    empty [AWS_REGION] selects [us-west-2]. *)
Theorem main_takes_an_empty_variable_for_unset (key : string) (fuel : nat) (run : Run B) :
  main aws (<[key := ""%string]> env) Time_String fuel run
  = main aws (delete key env) Time_String fuel run.
Proof. unfold main. rewrite !Getenv_empty_is_unset. reflexivity. Qed.

(** *** Whole runs *)

(** With the three required variables set, [main] goes on to create the
    clients. *)
Lemma main_past_the_environment fuel (run : Run B) :
  Getenv env "ECS_CLUSTER" <> ""%string ->
  Getenv env "ECS_TASK_ID" <> ""%string ->
  Getenv env "LOG_GROUP_NAME" <> ""%string ->
  main aws env Time_String fuel run
  = bind (getECSClient aws
            (if String.eqb (Getenv env "AWS_REGION") "" then "us-west-2"%string
             else Getenv env "AWS_REGION"))
      (fun r =>
         bind (match r with
               | Err err => log_Fatalf ("failed to create ECS client: " +:+ err)
               | Ok c => ret c
               end)
           (fun ecsClient =>
              bind (getCloudWatchLogsClient aws
                      (if String.eqb (Getenv env "AWS_REGION") "" then "us-west-2"%string
                       else Getenv env "AWS_REGION"))
                (fun r =>
                   bind (match r with
                         | Err err =>
                             log_Fatalf ("failed to create CloudWatch Logs client: " +:+ err)
                         | Ok c => ret c
                         end)
                     (fun cwLogsClient =>
                        bind (getTaskLogStreamName aws ecsClient (Getenv env "ECS_CLUSTER")
                                (Getenv env "ECS_TASK_ID"))
                          (fun r =>
                             bind (match r with
                                   | Err err =>
                                       log_Fatalf ("failed to get log stream name: " +:+ err)
                                   | Ok name => ret name
                                   end)
                               (fun logStreamName =>
                                  bind (fmt_Printf ("Log Stream Name: " +:+ logStreamName
                                                    +:+ newline))
                                    (fun _ =>
                                       bind (getLogEvents aws Time_String fuel cwLogsClient
                                               (Getenv env "LOG_GROUP_NAME") logStreamName)
                                         (fun err =>
                                            match err with
                                            | Some err =>
                                                log_Fatalf ("failed to get log events: "
                                                            +:+ err)
                                            | None => ret tt
                                            end)))))))) run.
Proof.
  intros Hc Ht Hl. unfold main. cbv zeta.
  unfold bind at 1. rewrite (eqb_nonempty _ Hc). cbn [ret].
  unfold bind at 1. rewrite (eqb_nonempty _ Ht). cbn [ret].
  unfold bind at 1. rewrite (eqb_nonempty _ Hl). cbn [ret].
  reflexivity.
Qed.

(** [getLogEvents] builds its request from the clock and enters the
    loop. *)
Lemma getLogEvents_enters_the_loop client logGroupName logStreamName (b : B) tr fuel :
  0 <= Time_nsec (Now aws b) < 1000000000 ->
  - 2 ^ 63 <= 1000 * (Time_Unix (Now aws b) - 3600) ->
  1000 * Time_Unix (Now aws b) < 2 ^ 63 ->
  getLogEvents aws Time_String fuel client logGroupName logStreamName (mkRun b tr)
  = getLogEvents_loop aws Time_String fuel
      (NewGetLogEventsPaginator aws client
         (GetLogEventsInput.mk (Some logGroupName) (Some logStreamName)
            (Some (1000 * (Time_Unix (Now aws b) - 3600)))
            (Some (1000 * Time_Unix (Now aws b)))))
      (mkRun b
         (tr ++ [NewPaginator client
                   (GetLogEventsInput.mk (Some logGroupName) (Some logStreamName)
                      (Some (1000 * (Time_Unix (Now aws b) - 3600)))
                      (Some (1000 * Time_Unix (Now aws b))))])).
Proof.
  intros Hns Hlo Hhi. unfold getLogEvents, bind, time_Now, emit. simpl.
  rewrite (Time_Add_minus_hour _ Hns). unfold mul64, UnixTimeFactor.
  rewrite !wrap64_small by lia.
  replace ((Time_Unix (Now aws b) - 3600) * 1000)
    with (1000 * (Time_Unix (Now aws b) - 3600)) by lia.
  replace (Time_Unix (Now aws b) * 1000) with (1000 * Time_Unix (Now aws b)) by lia.
  reflexivity.
Qed.

(** X14. A whole run that goes well. With the three variables set, a
    configuration for the region, a task whose first container has a name,
    and a paginator that serves pages of complete events, [main] loads the
    configuration twice (once per client), describes the one task of the
    one cluster named in the environment, prints [Log Stream Name:] with
    the name of the first container, asks for the last hour of the stream
    of that name in the log group of the environment, prints one line per
    event and returns; nothing is logged. *)
Theorem main_prints_the_stream_of_the_first_container
    (fuel : nat) (b b1 b2 : B) (tr : list Event) (cfg : Config) (name : string)
    (containers : list Container) (tasks : list Task)
    (pages : list GetLogEventsOutput.t) :
  let region := if String.eqb (Getenv env "AWS_REGION") "" then "us-west-2"%string
                else Getenv env "AWS_REGION" in
  let describe := DescribeTasksInput.mk (Some (Getenv env "ECS_CLUSTER"))
                    [Getenv env "ECS_TASK_ID"] in
  let input := GetLogEventsInput.mk (Some (Getenv env "LOG_GROUP_NAME")) (Some name)
                 (Some (1000 * (Time_Unix (Now aws b1) - 3600)))
                 (Some (1000 * Time_Unix (Now aws b1))) in
  Getenv env "ECS_CLUSTER" <> ""%string ->
  Getenv env "ECS_TASK_ID" <> ""%string ->
  Getenv env "LOG_GROUP_NAME" <> ""%string ->
  LoadDefaultConfig aws region b = Ok cfg ->
  DescribeTasks aws (mkEcsClient cfg) describe b
  = (Ok (DescribeTasksOutput.mk (mkTask (mkContainer (Some name) :: containers) :: tasks)),
     b1) ->
  0 <= Time_nsec (Now aws b1) < 1000000000 ->
  - 2 ^ 63 <= 1000 * (Time_Unix (Now aws b1) - 3600) ->
  1000 * Time_Unix (Now aws b1) < 2 ^ 63 ->
  serves_pages aws (NewGetLogEventsPaginator aws (mkLogsClient cfg) input) b1 pages b2 ->
  Forall complete (concat (map GetLogEventsOutput.Events pages)) ->
  (length pages < fuel)%nat ->
  main aws env Time_String fuel (mkRun b tr)
  = Some (Returned tt,
          mkRun b2
            (tr ++ [LoadedConfig region;
                    LoadedConfig region;
                    CalledDescribeTasks (mkEcsClient cfg) describe;
                    Printed ("Log Stream Name: " +:+ name +:+ newline);
                    NewPaginator (mkLogsClient cfg) input]
                ++ page_trace Time_String pages)).
Proof.
  intros region describe input Hc Ht Hl Hcfg Hd Hns Hlo Hhi Hs Hall Hfuel.
  rewrite (main_past_the_environment fuel _ Hc Ht Hl). fold region.
  unfold bind at 1, getECSClient, bind at 1, config_LoadDefaultConfig.
  cbn [backend trace]. rewrite Hcfg. cbn [ret].
  unfold bind at 1. cbn [ret].
  unfold bind at 1, getCloudWatchLogsClient, bind at 1, config_LoadDefaultConfig.
  cbn [backend trace]. rewrite Hcfg. cbn [ret].
  unfold bind at 1. cbn [ret].
  unfold bind at 1, getTaskLogStreamName, bind at 1. cbn [backend trace].
  fold describe. rewrite Hd. cbn -[String.append getLogEvents].
  unfold bind at 1.
  rewrite (getLogEvents_enters_the_loop _ _ _ _ _ _ Hns Hlo Hhi). fold input.
  rewrite (getLogEvents_loop_serves aws Time_String _ _ _ _ Hs Hall) by exact Hfuel.
  cbn [ret]. rewrite <- !app_assoc. reflexivity.
Qed.

(** X15. A run that cannot resolve the log stream ends with status 1:
    when the configuration cannot be loaded, when the task cannot be
    described, when no task is returned, and when the first task has no
    container, [main] logs the error under [failed to create ECS client:]
    or [failed to get log stream name:] and exits; in none of these cases
    is anything printed or any log event asked for. *)
Theorem main_exits_when_the_stream_is_not_found
    (fuel : nat) (b b1 : B) (tr : list Event) (cfg : Config) (err : error)
    (tasks : list Task) :
  let region := if String.eqb (Getenv env "AWS_REGION") "" then "us-west-2"%string
                else Getenv env "AWS_REGION" in
  let describe := DescribeTasksInput.mk (Some (Getenv env "ECS_CLUSTER"))
                    [Getenv env "ECS_TASK_ID"] in
  Getenv env "ECS_CLUSTER" <> ""%string ->
  Getenv env "ECS_TASK_ID" <> ""%string ->
  Getenv env "LOG_GROUP_NAME" <> ""%string ->
  (LoadDefaultConfig aws region b = Err err ->
   main aws env Time_String fuel (mkRun b tr)
   = Some (Exited 1,
           mkRun b (tr ++ [LoadedConfig region;
                           Logged ("failed to create ECS client: "
                                   +:+ "unable to load SDK config, " +:+ err)])))
  /\ (LoadDefaultConfig aws region b = Ok cfg ->
      (DescribeTasks aws (mkEcsClient cfg) describe b = (Err err, b1) ->
       main aws env Time_String fuel (mkRun b tr)
       = Some (Exited 1,
               mkRun b1 (tr ++ [LoadedConfig region; LoadedConfig region;
                                CalledDescribeTasks (mkEcsClient cfg) describe;
                                Logged ("failed to get log stream name: "
                                        +:+ "failed to describe tasks: " +:+ err)])))
      /\ (DescribeTasks aws (mkEcsClient cfg) describe b
          = (Ok (DescribeTasksOutput.mk []), b1) ->
          main aws env Time_String fuel (mkRun b tr)
          = Some (Exited 1,
                  mkRun b1 (tr ++ [LoadedConfig region; LoadedConfig region;
                                   CalledDescribeTasks (mkEcsClient cfg) describe;
                                   Logged "failed to get log stream name: task not found"])))
      /\ (DescribeTasks aws (mkEcsClient cfg) describe b
          = (Ok (DescribeTasksOutput.mk (mkTask [] :: tasks)), b1) ->
          main aws env Time_String fuel (mkRun b tr)
          = Some (Exited 1,
                  mkRun b1
                    (tr ++ [LoadedConfig region; LoadedConfig region;
                            CalledDescribeTasks (mkEcsClient cfg) describe;
                            Logged "failed to get log stream name: no containers found in task"]))))
.
Proof.
  intros region describe Hc Ht Hl. split.
  - intros Hcfg. rewrite (main_past_the_environment fuel _ Hc Ht Hl). fold region.
    unfold bind at 1, getECSClient, bind at 1, config_LoadDefaultConfig.
    cbn [backend trace]. rewrite Hcfg. cbn. rewrite <- !app_assoc. reflexivity.
  - intros Hcfg.
    assert (forall res,
              DescribeTasks aws (mkEcsClient cfg) describe b = (res, b1) ->
              main aws env Time_String fuel (mkRun b tr)
              = bind (match res with
                      | Err err => ret (Err ("failed to describe tasks: " +:+ err))
                      | Ok resp =>
                          if Nat.eqb (length (DescribeTasksOutput.Tasks resp)) 0
                          then ret (Err "task not found"%string)
                          else
                            bind (index (DescribeTasksOutput.Tasks resp) 0)
                              (fun task =>
                                 if Nat.eqb (length (Containers task)) 0
                                 then ret (Err "no containers found in task"%string)
                                 else
                                   bind (index (Containers task) 0)
                                     (fun container =>
                                        bind (deref (Name container))
                                          (fun name => ret (Ok name))))
                      end)
                  (fun r =>
                     bind (match r with
                           | Err err =>
                               log_Fatalf ("failed to get log stream name: " +:+ err)
                           | Ok name => ret name
                           end)
                       (fun logStreamName =>
                          bind (fmt_Printf ("Log Stream Name: " +:+ logStreamName
                                            +:+ newline))
                            (fun _ =>
                               bind (getLogEvents aws Time_String fuel (mkLogsClient cfg)
                                       (Getenv env "LOG_GROUP_NAME") logStreamName)
                                 (fun err =>
                                    match err with
                                    | Some err =>
                                        log_Fatalf ("failed to get log events: " +:+ err)
                                    | None => ret tt
                                    end))))
                  (mkRun b1 (tr ++ [LoadedConfig region; LoadedConfig region;
                                    CalledDescribeTasks (mkEcsClient cfg) describe])))
      as Hmain.
    { intros res Hd. rewrite (main_past_the_environment fuel _ Hc Ht Hl). fold region.
      unfold bind at 1, getECSClient, bind at 1, config_LoadDefaultConfig.
      cbn [backend trace]. rewrite Hcfg. cbn [ret].
      unfold bind at 1. cbn [ret].
      unfold bind at 1, getCloudWatchLogsClient, bind at 1, config_LoadDefaultConfig.
      cbn [backend trace]. rewrite Hcfg. cbn [ret].
      unfold bind at 1. cbn [ret].
      unfold bind at 1, getTaskLogStreamName, bind at 1. cbn [backend trace].
      fold describe. rewrite Hd. rewrite <- !app_assoc. reflexivity. }
    split; [|split]; intros Hd; rewrite (Hmain _ Hd); cbn;
      rewrite <- ?app_assoc; reflexivity.
Qed.

End Facts.

Lemma getLogEvents_loop_on_broken_stream :
  getLogEvents_loop Fake.broken Fake.String_ 2
    (Fake.mkPaginator (GetLogEventsInput.mk None None None None) true None)
    (mkRun 0%nat [])
  = Some (Returned (Some "failed to get log events: ThrottlingException"%string),
          mkRun 2%nat
            [CalledNextPage;
             Printed ("1700000000.0" +:+ tab +:+ "hello" +:+ newline);
             CalledNextPage]).
Proof.
  apply (proj1 (getLogEvents_loop_returns_the_error_after_printing Fake.broken Fake.String_
                  (Fake.mkPaginator (GetLogEventsInput.mk None None None None) true None)
                  0%nat 2%nat
                  [GetLogEventsOutput.mk
                     [mkEvent (Some 1700000000000) (Some "hello"%string)]
                     (Some "f/1"%string)]
                  "ThrottlingException" [] 2
                  ltac:(eapply fails_pages_later;
                        [reflexivity | reflexivity
                         | eapply fails_pages_now; reflexivity])
                  ltac:(repeat constructor; eexists; reflexivity)
                  ltac:(simpl; lia))).
Defined.

Lemma getLogEvents_loop_on_silent_event :
  getLogEvents_loop Fake.silent Fake.String_ 1
    (Fake.mkPaginator (GetLogEventsInput.mk None None None None) true None)
    (mkRun 0%nat [])
  = Some (Panicked "runtime error: invalid memory address or nil pointer dereference",
          mkRun 1%nat
            [CalledNextPage; Printed ("1700000000.0" +:+ tab +:+ "hello" +:+ newline)]).
Proof.
  apply (getLogEvents_loop_panics_on_an_incomplete_event Fake.silent Fake.String_
           (Fake.mkPaginator (GetLogEventsInput.mk None None None None) true None)
           (Fake.mkPaginator (GetLogEventsInput.mk None None None None) false None)
           0%nat 1%nat
           (GetLogEventsOutput.mk
              [mkEvent (Some 1700000000000) (Some "hello"%string);
               mkEvent (Some 1700000001000) None;
               mkEvent (Some 1700000002000) (Some "world"%string)]
              None)
           [mkEvent (Some 1700000000000) (Some "hello"%string)]
           [mkEvent (Some 1700000002000) (Some "world"%string)]
           (mkEvent (Some 1700000001000) None) [] 0).
  - reflexivity.
  - reflexivity.
  - reflexivity.
  - repeat constructor; eexists; reflexivity.
  - right. reflexivity.
Defined.

Lemma getLogEvents_loop_on_endless_stream :
  getLogEvents_loop Fake.endless Fake.String_ 1000
    (Fake.mkPaginator (GetLogEventsInput.mk None None None None) true None)
    (mkRun 0%nat [])
  = None.
Proof.
  apply (getLogEvents_loop_runs_as_long_as_pages_come Fake.endless Fake.String_
           (fun p => Fake.firstPage p = true \/ is_Some (Fake.nextToken p))).
  - intros p Hp. split.
    + simpl. destruct Hp as [-> | [tok Htok]]; [reflexivity|].
      rewrite Htok. simpl. apply orb_true_r.
    + intros b. eexists _, _, _. split; [reflexivity|]. split; [|constructor].
      right. simpl. eexists. reflexivity.
  - left. reflexivity.
Defined.

Lemma main_on_app :
  main Fake.app Fake.full_env Fake.String_ 3 (mkRun 0%nat [])
  = Some (Returned tt,
          mkRun 3%nat
            [LoadedConfig "us-west-2"; LoadedConfig "us-west-2";
             CalledDescribeTasks Fake.ecs
               (DescribeTasksInput.mk (Some "prod"%string) ["0123abcd"%string]);
             Printed ("Log Stream Name: app" +:+ newline);
             NewPaginator Fake.logs
               (GetLogEventsInput.mk (Some "/ecs/app"%string) (Some "app"%string)
                  (Some 1700000000000) (Some 1700003600000));
             CalledNextPage;
             Printed ("1700000000.0" +:+ tab +:+ "hello" +:+ newline);
             CalledNextPage;
             Printed ("1700000001.0" +:+ tab +:+ "world" +:+ newline)]).
Proof.
  pose proof (main_prints_the_stream_of_the_first_container Fake.app Fake.full_env
                Fake.String_ 3 0%nat 1%nat 3%nat [] (mkConfig "us-west-2") "app" [] []
                [GetLogEventsOutput.mk
                   [mkEvent (Some 1700000000000) (Some "hello"%string)]
                   (Some "f/1"%string);
                 GetLogEventsOutput.mk
                   [mkEvent (Some 1700000001000) (Some "world"%string)] None]
                ltac:(vm_compute; discriminate)
                ltac:(vm_compute; discriminate)
                ltac:(vm_compute; discriminate)
                ltac:(vm_compute; reflexivity)
                ltac:(vm_compute; reflexivity)
                ltac:(vm_compute; split; [discriminate | reflexivity])
                ltac:(vm_compute; discriminate)
                ltac:(vm_compute; reflexivity)
                ltac:(eapply serves_pages_next;
                      [reflexivity | vm_compute; reflexivity
                       | eapply serves_pages_next;
                         [reflexivity | vm_compute; reflexivity
                          | apply serves_pages_done; reflexivity]])
                ltac:(repeat constructor; eexists; reflexivity)
                ltac:(simpl; lia)) as H.
  vm_compute in H. vm_compute. exact H.
Defined.

Lemma main_on_unresolvable_streams :
  main Fake.no_configuration Fake.full_env Fake.String_ 3 (mkRun 0%nat [])
  = Some (Exited 1,
          mkRun 0%nat
            [LoadedConfig "us-west-2";
             Logged "failed to create ECS client: unable to load SDK config, no credentials"])
  /\ main Fake.no_ecs Fake.full_env Fake.String_ 3 (mkRun 0%nat [])
     = Some (Exited 1,
             mkRun 1%nat
               [LoadedConfig "us-west-2"; LoadedConfig "us-west-2";
                CalledDescribeTasks Fake.ecs
                  (DescribeTasksInput.mk (Some "prod"%string) ["0123abcd"%string]);
                Logged "failed to get log stream name: failed to describe tasks: ClusterNotFoundException"])
  /\ main Fake.no_task Fake.full_env Fake.String_ 3 (mkRun 0%nat [])
     = Some (Exited 1,
             mkRun 1%nat
               [LoadedConfig "us-west-2"; LoadedConfig "us-west-2";
                CalledDescribeTasks Fake.ecs
                  (DescribeTasksInput.mk (Some "prod"%string) ["0123abcd"%string]);
                Logged "failed to get log stream name: task not found"])
  /\ main Fake.no_container Fake.full_env Fake.String_ 3 (mkRun 0%nat [])
     = Some (Exited 1,
             mkRun 1%nat
               [LoadedConfig "us-west-2"; LoadedConfig "us-west-2";
                CalledDescribeTasks Fake.ecs
                  (DescribeTasksInput.mk (Some "prod"%string) ["0123abcd"%string]);
                Logged "failed to get log stream name: no containers found in task"]).
Proof.
  pose proof (fun (aws : AWS nat Fake.Paginator) b1 cfg err tasks =>
                main_exits_when_the_stream_is_not_found aws Fake.full_env Fake.String_ 3
                  0%nat b1 [] cfg err tasks
                  ltac:(vm_compute; discriminate)
                  ltac:(vm_compute; discriminate)
                  ltac:(vm_compute; discriminate)) as H.
  split; [|split; [|split]].
  - pose proof (proj1 (H Fake.no_configuration 0%nat (mkConfig "us-west-2")
                         "no credentials"%string [])
                  ltac:(vm_compute; reflexivity)) as H1.
    vm_compute in H1. vm_compute. exact H1.
  - pose proof (proj1 (proj2 (H Fake.no_ecs 1%nat (mkConfig "us-west-2")
                                "ClusterNotFoundException"%string [])
                         ltac:(vm_compute; reflexivity))
                  ltac:(vm_compute; reflexivity)) as H1.
    vm_compute in H1. vm_compute. exact H1.
  - pose proof (proj1 (proj2 (proj2 (H Fake.no_task 1%nat (mkConfig "us-west-2")
                                       ""%string [])
                                ltac:(vm_compute; reflexivity)))
                  ltac:(vm_compute; reflexivity)) as H1.
    vm_compute in H1. vm_compute. exact H1.
  - pose proof (proj2 (proj2 (proj2 (H Fake.no_container 1%nat (mkConfig "us-west-2")
                                       ""%string [])
                                ltac:(vm_compute; reflexivity)))
                  ltac:(vm_compute; reflexivity)) as H1.
    vm_compute in H1. vm_compute. exact H1.
Defined.

End TaskLogsMore.
